(** * Verification of the data-cleaning core (src/utils/dataCleaner.js)

    The cleaning functions of [dataCleaner.js] are embedded as Rocq
    functions over a tagged cell type; the parts of the JavaScript run-time
    they call ([String.prototype.trim], [toLowerCase], [replace] with the
    regular expression [/\b\w/g], [JSON.stringify], [Set]) are modelled after
    ECMA-262.

    Strings: a JavaScript string is a sequence of UTF-16 code units.  The
    model uses [string], reading every [ascii] as the code unit of the same
    number, so it covers exactly the strings whose code units are below 256
    (ISO-8859-1).  On these the white-space set, the case mappings and the
    JSON escapes below are the ones of ECMA-262. *)

From Stdlib Require Import ZArith NArith Ascii String List Bool Lia.
From Stdlib Require Import DecimalString DecimalPos.
From stdpp Require Import base decidable option list gmap strings.

Open Scope string_scope.
Open Scope list_scope.

#[local] Arguments String.append !s1 s2 : simpl nomatch.

(** ** Code units *)

Definition code (c : ascii) : N := N_of_ascii c.

Definition inRange (lo hi : N) (c : ascii) : bool :=
  ((lo <=? code c) && (code c <=? hi))%N.

(** WhiteSpace and LineTerminator code points that [trim] strips, below 256:
    TAB, LF, VT, FF, CR, SP and NBSP. *)
Definition isWhiteSpace (c : ascii) : bool :=
  inRange 9 13 c || (code c =? 32)%N || (code c =? 160)%N.

(** The class [\w] of a regular expression without the [u] and [i] flags:
    [A-Za-z0-9_]. *)
Definition isWordChar (c : ascii) : bool :=
  inRange 65 90 c || inRange 97 122 c || inRange 48 57 c || (code c =? 95)%N.

(** [toLowerCase] on one code unit: [A-Z], and the capital letters
    U+00C0..U+00DE except the multiplication sign U+00D7, move up by 32. *)
Definition toLowerChar (c : ascii) : ascii :=
  if inRange 65 90 c
     || (inRange 192 222 c && negb (code c =? 215)%N)
  then ascii_of_N (code c + 32) else c.

(** [toUpperCase] on a code unit matched by [\w]: only [a-z] change. *)
Definition toUpperChar (c : ascii) : ascii :=
  if inRange 97 122 c then ascii_of_N (code c - 32) else c.

(** ** String primitives *)

Fixpoint trimStart (s : string) : string :=
  match s with
  | String c r => if isWhiteSpace c then trimStart r else s
  | EmptyString => EmptyString
  end.

Fixpoint trimEnd (s : string) : string :=
  match s with
  | String c r =>
      match trimEnd r with
      | EmptyString => if isWhiteSpace c then EmptyString else String c EmptyString
      | r' => String c r'
      end
  | EmptyString => EmptyString
  end.

(** [String.prototype.trim] *)
Definition trim (s : string) : string := trimEnd (trimStart s).

(** [String.prototype.toLowerCase] *)
Fixpoint toLowerCase (s : string) : string :=
  match s with
  | String c r => String (toLowerChar c) (toLowerCase r)
  | EmptyString => EmptyString
  end.

(** The assertion [\b] between two neighbouring code units: exactly one of
    them is a word character.  Outside the string counts as a non-word
    character, which is what [prevWord = false] stands for at index 0. *)
Definition wordBoundary (prevWord curWord : bool) : bool := xorb prevWord curWord.

(** [s.replace(/\b\w/g, f)]: every code unit that is a word character and
    stands at a word boundary is replaced by [f] of it.  The look-behind of
    [\b] reads the subject string, not the replacement, so the scan carries
    whether the previous code unit of the subject was a word character. *)
Fixpoint replaceWordStartFrom (f : ascii -> ascii) (prevWord : bool) (s : string) : string :=
  match s with
  | String c r =>
      let w := isWordChar c in
      String (if wordBoundary prevWord w && w then f c else c)
             (replaceWordStartFrom f w r)
  | EmptyString => EmptyString
  end.

Definition replaceWordStart (f : ascii -> ascii) (s : string) : string :=
  replaceWordStartFrom f false s.

(** ** Values *)

(** A JavaScript number as far as the cleaner can observe it, that is
    through [JSON.stringify].  A finite non-zero number is given by the
    decimal [s * 10^(n - k)] (with [k] the number of digits of [s]) from
    which Number::toString starts (ECMA-262, 6.1.6.1.20, step 5). *)
Inductive JsNumber : Type :=
  | NaN
  | Infinity (negative : bool)
  | Zero (negative : bool)
  | Finite (negative : bool) (s : positive) (n : Z).

(** A cell of the grid: [null], [undefined], a boolean, a number or a string. *)
Inductive Cell : Type :=
  | CNull
  | CUndefined
  | CBool (b : bool)
  | CNum (x : JsNumber)
  | CStr (s : string).

Definition Row : Type := list Cell.
Definition Grid : Type := list Row.

Inductive JsType : Type := TUndefined | TObject | TBoolean | TNumber | TString.

(** The [typeof] operator ([typeof null] is ["object"]). *)
Definition typeof (v : Cell) : JsType :=
  match v with
  | CNull => TObject
  | CUndefined => TUndefined
  | CBool _ => TBoolean
  | CNum _ => TNumber
  | CStr _ => TString
  end.

Definition isString (v : Cell) : bool :=
  match typeof v with TString => true | _ => false end.

(** ToBoolean, as used by [!text]. *)
Definition toBoolean (v : Cell) : bool :=
  match v with
  | CNull | CUndefined => false
  | CBool b => b
  | CNum NaN | CNum (Zero _) => false
  | CNum _ => true
  | CStr s => negb (String.length s =? 0)%nat
  end.

(** ** JSON.stringify on a row of primitive cells *)

Definition dquote : ascii := "034"%char.
Definition backslash : ascii := "092"%char.

Definition hexDigit (n : N) : ascii :=
  if (n <? 10)%N then ascii_of_N (48 + n) else ascii_of_N (87 + n).

(** UnicodeEscape: [\uXXXX] with lower-case hexadecimal digits. *)
Definition unicodeEscape (c : ascii) : string :=
  String backslash (String "u" (String "0" (String "0"
    (String (hexDigit (code c / 16)) (String (hexDigit (code c mod 16)) EmptyString))))).

(** One code unit inside QuoteJSONString (ECMA-262, 25.5.2.3). *)
Definition quoteJSONChar (c : ascii) : string :=
  if (code c =? 8)%N then String backslash "b"
  else if (code c =? 9)%N then String backslash "t"
  else if (code c =? 10)%N then String backslash "n"
  else if (code c =? 12)%N then String backslash "f"
  else if (code c =? 13)%N then String backslash "r"
  else if (code c =? 34)%N then String backslash (String dquote EmptyString)
  else if (code c =? 92)%N then String backslash (String backslash EmptyString)
  else if (code c <? 32)%N then unicodeEscape c
  else String c EmptyString.

Fixpoint quoteJSONBody (s : string) : string :=
  match s with
  | String c r => quoteJSONChar c +:+ quoteJSONBody r
  | EmptyString => String dquote EmptyString
  end.

Definition quoteJSONString (s : string) : string := String dquote (quoteJSONBody s).

Fixpoint zeros (n : nat) : string :=
  match n with O => EmptyString | S m => String "0" (zeros m) end.

Definition digitsOf (s : positive) : string := NilEmpty.string_of_uint (Pos.to_uint s).

(** Number::toString for radix 10 (ECMA-262, 6.1.6.1.20). *)
Definition numberToString (x : JsNumber) : string :=
  match x with
  | NaN => "NaN"
  | Infinity negative => if negative then "-Infinity" else "Infinity"
  | Zero _ => "0"
  | Finite negative s n =>
      let ds := digitsOf s in
      let k := String.length ds in
      let e := (n - 1)%Z in
      (if negative then "-" else EmptyString) +:+
      (if (Z.of_nat k <=? n)%Z && (n <=? 21)%Z then
         ds +:+ zeros (Z.to_nat n - k)
       else if (0 <? n)%Z && (n <=? 21)%Z then
         substring 0 (Z.to_nat n) ds +:+ "." +:+ substring (Z.to_nat n) (k - Z.to_nat n) ds
       else if (-6 <? n)%Z && (n <=? 0)%Z then
         "0." +:+ zeros (Z.to_nat (- n)) +:+ ds
       else
         (if (k =? 1)%nat then ds
          else substring 0 1 ds +:+ "." +:+ substring 1 (k - 1) ds)
         +:+ "e" +:+ (if (e <? 0)%Z then "-" else "+")
         +:+ NilEmpty.string_of_uint (N.to_uint (Z.abs_N e)))
  end.

Definition isFiniteNumber (x : JsNumber) : bool :=
  match x with NaN | Infinity _ => false | _ => true end.

(** SerializeJSONProperty for an array element: [undefined] and the
    non-finite numbers are written as [null]. *)
Definition serializeJSONProperty (v : Cell) : string :=
  match v with
  | CNull => "null"
  | CUndefined => "null"
  | CBool b => if b then "true" else "false"
  | CNum x => if isFiniteNumber x then numberToString x else "null"
  | CStr s => quoteJSONString s
  end.

Fixpoint joinComma (parts : list string) : string :=
  match parts with
  | [] => EmptyString
  | [p] => p
  | p :: rest => p +:+ "," +:+ joinComma rest
  end.

(** [JSON.stringify(row)] for an array of primitives. *)
Definition JSON_stringify (row : Row) : string :=
  "[" +:+ joinComma (map serializeJSONProperty row) +:+ "]".
#[local] Arguments JSON_stringify : simpl never.

(** ** dataCleaner.js *)

Definition EMPTY_CELL_REPLACEMENT : string := "N/A".

Definition toTitleCase (text : Cell) : Cell :=
  if negb (toBoolean text) || negb (isString text) then text
  else
    match text with
    | CStr s => CStr (replaceWordStart toUpperChar (toLowerCase s))
    | _ => text
    end.

Definition trimWhitespace (cell : Cell) : Cell :=
  match cell with
  | CStr s => CStr (trim s)
  | _ => cell
  end.

(** The callback of [normalizeCasing]. *)
Definition normalizeCasingCell (cell : Cell) : Cell :=
  match cell with
  | CStr s => if (0 <? String.length s)%nat then toTitleCase cell else cell
  | _ => cell
  end.

Definition normalizeCasing (data : Grid) : Grid :=
  map (fun row => map normalizeCasingCell row) data.

(** One iteration of the loop of [removeDuplicateRows] on the state
    [(seen, uniqueRows)]. *)
Definition dedupStep (st : gset string * Grid) (row : Row) : gset string * Grid :=
  let rowString := JSON_stringify row in
  if bool_decide (rowString ∈ st.1) then st
  else ({[rowString]} ∪ st.1, st.2 ++ [row]).

Definition removeDuplicateRows (data : Grid) : Grid :=
  (fold_left dedupStep data (∅, [])).2.

(** The callback of [row.every] in [isEmptyRow]. *)
Definition isEmptyCell (cell : Cell) : bool :=
  match cell with
  | CNull | CUndefined => true
  | CStr s => (String.length (trim s) =? 0)%nat
  | _ => false
  end.

Definition isEmptyRow (row : Row) : bool := forallb isEmptyCell row.

Definition removeEmptyRows (data : Grid) : Grid :=
  List.filter (fun row => negb (isEmptyRow row)) data.

(** The callback of [replaceEmptyCells]. *)
Definition replaceEmptyCell (cell : Cell) : Cell :=
  match cell with
  | CNull | CUndefined => CStr EMPTY_CELL_REPLACEMENT
  | CStr s => if (String.length (trim s) =? 0)%nat then CStr EMPTY_CELL_REPLACEMENT else cell
  | _ => cell
  end.

Definition replaceEmptyCells (data : Grid) : Grid :=
  map (fun row => map replaceEmptyCell row) data.

(** The loop of [detectHeaderRow], from index [i] on the rows not yet
    visited; [None] when the loop runs to its end. *)
Fixpoint detectHeaderRowFrom (i : nat) (rows : Grid) : option nat :=
  match rows with
  | row :: rest => if negb (isEmptyRow row) then Some i else detectHeaderRowFrom (S i) rest
  | [] => None
  end.

Definition detectHeaderRow (data : Grid) : nat :=
  match detectHeaderRowFrom 0 data with
  | Some i => i
  | None => 0
  end.

Definition trimAllWhitespace (data : Grid) : Grid :=
  map (fun row => map trimWhitespace row) data.

Record CleaningResult : Type := {
  cleanedData : Grid;
  headerRowIndex : nat;
  originalRowCount : nat;
  cleanedRowCount : nat
}.

(** What a call does: returns a value or throws [new Error(message)]. *)
Inductive Completion (A : Type) : Type :=
  | Returns (value : A)
  | Throws (message : string).
Arguments Returns {A} value.
Arguments Throws {A} message.

(** [cleanData(data)]; [None] stands for a [null] or [undefined] argument. *)
Definition cleanData (data : option Grid) : Completion CleaningResult :=
  match data with
  | None => Throws "No data provided to clean."
  | Some data =>
      if (length data =? 0)%nat then Throws "No data provided to clean."
      else
        let originalRowCount := length data in
        let cleaned := trimAllWhitespace data in
        let cleaned := normalizeCasing cleaned in
        let cleaned := removeDuplicateRows cleaned in
        let cleaned := removeEmptyRows cleaned in
        let cleaned := replaceEmptyCells cleaned in
        let headerRowIndex := detectHeaderRow cleaned in
        let cleanedRowCount := length cleaned in
        Returns {| cleanedData := cleaned;
                   headerRowIndex := headerRowIndex;
                   originalRowCount := originalRowCount;
                   cleanedRowCount := cleanedRowCount |}
  end.


(** ** Definitions that follow the wording of the specification *)

(** "The first occurrence of each distinct row is kept; every later
    occurrence is dropped": a row survives exactly when none of the rows
    [before] it has the same serialization. *)
Fixpoint keepFirstFrom (before rows : Grid) : Grid :=
  match rows with
  | row :: rest =>
      (if forallb (fun r => negb (String.eqb (JSON_stringify r) (JSON_stringify row))) before
       then [row] else [])
      ++ keepFirstFrom (before ++ [row]) rest
  | [] => []
  end.

Definition keepFirstOccurrences (data : Grid) : Grid := keepFirstFrom [] data.

(** Two cells are equal "under the canonical serialization". *)
Definition sameCell (a b : Cell) : Prop :=
  serializeJSONProperty a = serializeJSONProperty b.

(** An Empty marker of the data model. *)
Definition isEmptyMarker (v : Cell) : bool :=
  match v with CNull | CUndefined => true | _ => false end.

(** The cells that [JSON.stringify] writes as [null]. *)
Definition writtenAsNull (v : Cell) : bool :=
  match v with
  | CNull | CUndefined => true
  | CNum x => negb (isFiniteNumber x)
  | _ => false
  end.

(** The maximal runs of word and non-word characters of a string, in order,
    each with its class. *)
Fixpoint runs (isWord : ascii -> bool) (s : string) : list (bool * string) :=
  match s with
  | String c r =>
      match runs isWord r with
      | (w, t) :: rs =>
          if Bool.eqb w (isWord c) then (w, String c t) :: rs
          else (isWord c, String c EmptyString) :: (w, t) :: rs
      | [] => [(isWord c, String c EmptyString)]
      end
  | EmptyString => []
  end.

Definition capitalizeRun (upper : ascii -> ascii) (run : bool * string) : string :=
  match run with
  | (true, String c r) => String (upper c) r
  | (_, t) => t
  end.

Fixpoint concatRuns (parts : list string) : string :=
  match parts with
  | p :: rest => p +:+ concatRuns rest
  | [] => EmptyString
  end.

(** "Lower-case the entire string, then upper-case the first character of
    each maximal run of word characters", for a given class of word
    characters. *)
Definition titleCaseOf (isWord : ascii -> bool) (upper : ascii -> ascii) (s : string) : string :=
  concatRuns (map (capitalizeRun upper) (runs isWord (toLowerCase s))).

(** Word characters in the Unicode sense, below 256: the letters (with the
    accented ones, the ordinal indicators and the micro sign), the digits
    and the underscore. *)
Definition isUnicodeWordChar (c : ascii) : bool :=
  isWordChar c
  || (code c =? 170)%N || (code c =? 181)%N || (code c =? 186)%N
  || inRange 192 214 c || inRange 216 246 c || inRange 248 255 c.

(** Upper-casing of a letter below 256 whose capital is below 256 too. *)
Definition toUnicodeUpperChar (c : ascii) : ascii :=
  if inRange 97 122 c || inRange 224 246 c || inRange 248 254 c
  then ascii_of_N (code c - 32) else c.

(** ** Reading a serialized row back

    These readers are not part of the program; they show that the text of a
    row determines the text of each of its cells. *)

(** The text up to the next [,] or [[]]]. *)
Fixpoint takePlain (t : string) : string * string :=
  match t with
  | String c r =>
      if (code c =? 44)%N || (code c =? 93)%N then (EmptyString, t)
      else let '(a, b) := takePlain r in (String c a, b)
  | EmptyString => (EmptyString, EmptyString)
  end.

(** The text up to and with the closing quote of a JSON string. *)
Fixpoint takeQuotedFrom (escaped : bool) (t : string) : string * string :=
  match t with
  | String c r =>
      if escaped then let '(a, b) := takeQuotedFrom false r in (String c a, b)
      else if (code c =? 92)%N then let '(a, b) := takeQuotedFrom true r in (String c a, b)
      else if (code c =? 34)%N then (String c EmptyString, r)
      else let '(a, b) := takeQuotedFrom false r in (String c a, b)
  | EmptyString => (EmptyString, EmptyString)
  end.

Definition splitToken (t : string) : string * string :=
  match t with
  | String c r =>
      if (code c =? 34)%N then let '(a, b) := takeQuotedFrom false r in (String c a, b)
      else takePlain t
  | EmptyString => (EmptyString, EmptyString)
  end.

Definition hexValue (c : ascii) : N :=
  if inRange 48 57 c then code c - 48 else code c - 87.

(** The string that a JSON string body (after its opening quote) denotes. *)
Fixpoint unquoteJSONBody (t : string) : option string :=
  match t with
  | String c r =>
      if (code c =? 34)%N then Some EmptyString
      else if (code c =? 92)%N then
        match r with
        | String e r1 =>
            if (code e =? 117)%N then
              match r1 with
              | String _ (String _ (String h (String l r2))) =>
                  option_map (String (ascii_of_N (16 * hexValue h + hexValue l)))
                             (unquoteJSONBody r2)
              | _ => None
              end
            else
              option_map
                (String (if (code e =? 98)%N then "008"%char
                         else if (code e =? 116)%N then "009"%char
                         else if (code e =? 110)%N then "010"%char
                         else if (code e =? 102)%N then "012"%char
                         else if (code e =? 114)%N then "013"%char
                         else e))
                (unquoteJSONBody r1)
        | EmptyString => None
        end
      else option_map (String c) (unquoteJSONBody r)
  | EmptyString => None
  end.

(** ** Auxiliary notions used in the statements *)

(** A string that [trimStart] leaves alone: empty or starting with a
    character that is no white space. *)
Definition noLeadingSpace (s : string) : bool :=
  match s with String c _ => negb (isWhiteSpace c) | EmptyString => true end.

(** The character that the replacement writes at a position. *)
Definition replacedChar (prevWord : bool) (c : ascii) : ascii :=
  if wordBoundary prevWord (isWordChar c) && isWordChar c then toUpperChar c else c.

(** The string part of [toTitleCase]. *)
Definition titleCased (s : string) : string := replaceWordStart toUpperChar (toLowerCase s).

(** Stages 1 and 2 on one cell. *)
Definition normalizeCell (cell : Cell) : Cell := normalizeCasingCell (trimWhitespace cell).

(** The grid that [cleanData] hands to [replaceEmptyCells]. *)
Definition beforeReplacement (data : Grid) : Grid :=
  removeEmptyRows (removeDuplicateRows (normalizeCasing (trimAllWhitespace data))).

(** The grid that [cleanData] returns. *)
Definition cleanedGrid (data : Grid) : Grid := replaceEmptyCells (beforeReplacement data).

(** Every code unit of a string satisfies [p]. *)
Fixpoint allChars (p : ascii -> bool) (s : string) : bool :=
  match s with
  | String c r => p c && allChars p r
  | EmptyString => true
  end.

(** The characters Number::toString writes for a finite number. *)
Definition isNumberChar (c : ascii) : bool :=
  inRange 48 57 c || (code c =? 45)%N || (code c =? 43)%N || (code c =? 46)%N
  || (code c =? 101)%N.

(** A comma or a closing bracket. *)
Definition isDelimiter (c : ascii) : bool := (code c =? 44)%N || (code c =? 93)%N.

(** Neither a delimiter nor a double quote. *)
Definition isPlainChar (c : ascii) : bool := negb (isDelimiter c) && negb (code c =? 34)%N.

(** What follows the text of a cell in the text of its row. *)
Definition closeRow (texts : list string) : string :=
  match texts with
  | [] => "]"
  | _ => "," +:+ joinComma texts +:+ "]"
  end.

(** What the text of a cell tells about the cell: its kind and, within the
    kind, its value; [null], [undefined] and the non-finite numbers share
    one text. *)
Inductive CellClass : Type :=
  | KNull
  | KBoolean (b : bool)
  | KNumber (text : string)
  | KText (s : string).

Definition cellClass (v : Cell) : CellClass :=
  match v with
  | CNull | CUndefined => KNull
  | CBool b => KBoolean b
  | CNum x => if isFiniteNumber x then KNumber (numberToString x) else KNull
  | CStr s => KText s
  end.

(** "Empty" in the sense of the emptiness rules: an Empty marker, or a
    string whose trimmed content has zero length. *)
Definition EmptyCell (cell : Cell) : Prop :=
  cell = CNull \/ cell = CUndefined
  \/ exists s, cell = CStr s /\ String.length (trim s) = 0.

(** ** Concrete inputs *)

(** Scenario A of the specification. *)
Definition scenarioA : Grid :=
  [ [CStr "  alice  "; CStr "30"];
    [CStr "Alice"; CStr "30"];
    [CStr EmptyString; CStr EmptyString] ].

Definition resultA : CleaningResult :=
  {| cleanedData := [[CStr "Alice"; CStr "30"]];
     headerRowIndex := 0;
     originalRowCount := 3;
     cleanedRowCount := 1 |}.

(** Scenario B of the specification. *)
Definition scenarioB : Grid := [ [CNull; CNull]; [CStr "x"; CNull] ].

Definition resultB : CleaningResult :=
  {| cleanedData := [[CStr "X"; CStr "N/A"]];
     headerRowIndex := 0;
     originalRowCount := 2;
     cleanedRowCount := 1 |}.

(** The number 5. *)
Definition five : JsNumber := Finite false 5 1.

(** The word "ecole" with an acute accent on its first letter (U+00E9). *)
Definition ecole : string := String "233" "cole".
Definition Ecole : string := String "201" "cole".
Definition eCole : string := String "233" "Cole".

(** Two rows that differ before the placeholder is inserted and agree after. *)
Definition collidingGrid : Grid := [ [CStr "a"; CNull]; [CStr "a"; CStr "N/A"] ].

(** A grid whose only row is fully empty. *)
Definition emptyRowGrid : Grid := [ [CNull] ].

(** ** dataCleaner.js: the sample for the analysis *)

Definition AI_SAMPLE_SIZE : Z := 20.

(** [arr.slice(0, end)] for an integer [end]: a negative [end] counts from
    the end of the array (ECMA-262, 23.1.3.28). *)
Definition sliceFromStart {A : Type} (arr : list A) (finish : Z) : list A :=
  let len := Z.of_nat (length arr) in
  let final := if (finish <? 0)%Z then Z.max (len + finish) 0 else Z.min finish len in
  firstn (Z.to_nat final) arr.

(** [getSampleData(data, sampleSize)], for integer sample sizes; [None] as
    [sampleSize] stands for an omitted argument, which takes the default. *)
Definition getSampleData (data : option Grid) (sampleSize : option Z) : Grid :=
  let sampleSize := match sampleSize with Some n => n | None => AI_SAMPLE_SIZE end in
  match data with
  | None => []
  | Some data =>
      if (length data =? 0)%nat then []
      else sliceFromStart data (Z.min sampleSize (Z.of_nat (length data)))
  end.

(** ** aiAnalyzer.js *)

(** The global objects the module reads.  [None] is an undefined global (or
    a falsy [config] / [env]); a settings object maps names to primitive
    values, a missing name reading as [undefined]. *)
Record WindowObject : Type := { config : option (gmap string Cell) }.
Record ProcessObject : Type := { env : option (gmap string Cell) }.
Record Globals : Type := { window : option WindowObject; process : option ProcessObject }.

(** [obj[key]] on a settings object. *)
Definition readSetting (settings : gmap string Cell) (key : string) : Cell :=
  match settings !! key with Some v => v | None => CUndefined end.

(** [window.config] when [window] is defined and [window.config] is truthy. *)
Definition windowConfig (g : Globals) : option (gmap string Cell) :=
  match window g with Some w => config w | None => None end.

Definition processEnv (g : Globals) : option (gmap string Cell) :=
  match process g with Some p => env p | None => None end.

(** [settings && settings[key]]: falsy when the settings object is missing. *)
Definition settingOf (settings : option (gmap string Cell)) (key : string) : Cell :=
  match settings with
  | Some c => readSetting c key
  | None => CUndefined
  end.

Definition getConfigValue (g : Globals) (key : string) (defaultValue : Cell) : Cell :=
  if toBoolean (settingOf (windowConfig g) key) then settingOf (windowConfig g) key
  else if toBoolean (settingOf (processEnv g) key) then settingOf (processEnv g) key
  else defaultValue.

Definition AI_API_ENDPOINT (g : Globals) : Cell :=
  getConfigValue g "AI_API_ENDPOINT" (CStr "https://api.openai.com/v1/chat/completions").

Definition AI_MODEL (g : Globals) : Cell := getConfigValue g "AI_MODEL" (CStr "gpt-3.5-turbo").

Definition getApiKey (g : Globals) : Cell :=
  if toBoolean (settingOf (windowConfig g) "AI_API_KEY")
  then settingOf (windowConfig g) "AI_API_KEY"
  else if toBoolean (settingOf (processEnv g) "AI_API_KEY")
  then settingOf (processEnv g) "AI_API_KEY"
  else CNull.

(** ToString of a primitive value, as in a template literal. *)
Definition toStringValue (v : Cell) : string :=
  match v with
  | CNull => "null"
  | CUndefined => "undefined"
  | CBool b => if b then "true" else "false"
  | CNum x => numberToString x
  | CStr s => s
  end.

(** The text [Array.prototype.join] writes for an element: nothing for
    [null] and [undefined], ToString of the others. *)
Definition joinText (v : Cell) : string :=
  match v with
  | CNull | CUndefined => EmptyString
  | _ => toStringValue v
  end.

(** [parts.join(sep)] on the texts of the elements. *)
Fixpoint arrayJoin (sep : string) (parts : list string) : string :=
  match parts with
  | [] => EmptyString
  | [p] => p
  | p :: rest => p +:+ sep +:+ arrayJoin sep rest
  end.

Definition tab : ascii := "009"%char.
Definition newline : ascii := "010"%char.

Definition formatDataForAI (sampleData : option Grid) : string :=
  match sampleData with
  | None => "No data available for analysis."
  | Some sampleData =>
      if (length sampleData =? 0)%nat then "No data available for analysis."
      else
        let lines :=
          map (fun row => arrayJoin (String tab EmptyString) (map joinText row)) sampleData in
        arrayJoin (String newline EmptyString) lines
  end.

(** A value of [response.json()]. *)
#[local] Unset Elimination Schemes.
Inductive Json : Type :=
  | JNull
  | JBool (b : bool)
  | JNumber (x : JsNumber)
  | JString (s : string)
  | JArray (items : list Json)
  | JObject (members : list (string * Json)).
#[local] Set Elimination Schemes.

(** The member of an object for a name; of two members with one name
    [JSON.parse] keeps the later. *)
Fixpoint lookupMember (members : list (string * Json)) (key : string) : option Json :=
  match members with
  | (k, v) :: rest =>
      match lookupMember rest key with
      | Some later => Some later
      | None => if String.eqb k key then Some v else None
      end
  | [] => None
  end.

(** [v.key] for a value that is neither [null] nor [undefined] and a name
    that no prototype defines ([choices], [message], [content], [0] on an
    object); [None] is [undefined]. *)
Definition jsonProperty (v : Json) (key : string) : option Json :=
  match v with
  | JObject members => lookupMember members key
  | _ => None
  end.

(** ToBoolean of a value that may be [undefined]. *)
Definition jsonTruthy (v : option Json) : bool :=
  match v with
  | None | Some JNull => false
  | Some (JBool b) => b
  | Some (JNumber x) => toBoolean (CNum x)
  | Some (JString s) => negb (String.length s =? 0)%nat
  | Some (JArray _) | Some (JObject _) => true
  end.

(** [v.length === 0]. *)
Definition lengthIsZero (v : Json) : bool :=
  match v with
  | JArray items => (length items =? 0)%nat
  | JString s => (String.length s =? 0)%nat
  | JObject members =>
      match lookupMember members "length" with
      | Some (JNumber (Zero _)) => true
      | _ => false
      end
  | _ => false
  end.

(** [v[0]]. *)
Definition firstElement (v : Json) : option Json :=
  match v with
  | JArray items => match items with x :: _ => Some x | [] => None end
  | JString s => match s with String c _ => Some (JString (String c EmptyString)) | EmptyString => None end
  | JObject members => lookupMember members "0"
  | _ => None
  end.

Definition typeError : string := "TypeError".

(** [parseAIResponse(apiResponse)]; reading a property of [null] or
    [undefined], and calling [content.trim] on a value that is no string,
    throw a TypeError. *)
Definition parseAIResponse (apiResponse : option Json) : Completion string :=
  if negb (jsonTruthy apiResponse) then Returns "No insights available from AI analysis."
  else
    match apiResponse with
    | None => Returns "No insights available from AI analysis."
    | Some response =>
        let choices := jsonProperty response "choices" in
        if negb (jsonTruthy choices) then Returns "No insights available from AI analysis."
        else
          match choices with
          | None => Returns "No insights available from AI analysis."
          | Some choices =>
              if lengthIsZero choices then Returns "No insights available from AI analysis."
              else
                match firstElement choices with
                | None | Some JNull => Throws typeError
                | Some first =>
                    let content :=
                      match jsonProperty first "message" with
                      | None | Some JNull => None
                      | Some message => jsonProperty message "content"
                      end in
                    if negb (jsonTruthy content) then Returns "AI response format unexpected."
                    else
                      match content with
                      | Some (JString s) => Returns (trim s)
                      | _ => Throws typeError
                      end
                end
          end
    end.

(** What [fetch] is called with. *)
Record Request : Type := {
  url : Cell;
  method : string;
  contentType : string;
  authorization : string;
  model : Cell;
  systemContent : string;
  userContent : string;
  max_tokens : JsNumber;
  temperature : JsNumber
}.

(** A response as [callAIApi] reads it. *)
Record Response : Type := {
  ok : bool;
  status : nat;
  text : Completion string;
  json : Completion Json
}.

(** How the promise of [fetch] settles. *)
Inductive FetchOutcome : Type :=
  | Rejected (message : string)
  | Resolved (response : Response).

Definition promptFor (formattedData : string) : string :=
  "Analyze the following spreadsheet data sample and provide insights:"
  +:+ String newline "- Identify any data inconsistencies or anomalies"
  +:+ String newline "- Suggest improvements for data quality"
  +:+ String newline "- Note any patterns or issues"
  +:+ String newline (String newline "Data sample:")
  +:+ String newline formattedData
  +:+ String newline (String newline "Please provide concise, actionable insights.").

Definition requestFor (g : Globals) (sampleData : Grid) (apiKey : Cell) : Request :=
  {| url := AI_API_ENDPOINT g;
     method := "POST";
     contentType := "application/json";
     authorization := "Bearer " +:+ toStringValue apiKey;
     model := AI_MODEL g;
     systemContent :=
       "You are a data quality analyst. Provide concise, actionable insights about spreadsheet data.";
     userContent := promptFor (formatDataForAI (Some sampleData));
     max_tokens := Finite false 5 3;
     temperature := Finite false 3 0 |}.

(** [callAIApi(sampleData, apiKey)] against a network that answers
    [fetch]; beside the completion, the requests that were sent. *)
Definition callAIApi (g : Globals) (fetch : Request -> FetchOutcome)
    (sampleData : Grid) (apiKey : Cell) : Completion Json * list Request :=
  let request := requestFor g sampleData apiKey in
  (match fetch request with
   | Rejected message => Throws message
   | Resolved response =>
       if negb (ok response) then
         match text response with
         | Returns errorText =>
             Throws ("AI API error: "
                     +:+ NilEmpty.string_of_uint (Nat.to_uint (status response))
                     +:+ " - " +:+ errorText)
         | Throws message => Throws message
         end
       else json response
   end, [request]).

(** [analyzeData(cleanedData, enabled)]: the insights or [null], and the
    requests that were sent. *)
Definition analyzeData (g : Globals) (fetch : Request -> FetchOutcome)
    (cleanedData : option Grid) (enabled : bool) : option string * list Request :=
  if negb enabled then (None, [])
  else
    let apiKey := getApiKey g in
    if negb (toBoolean apiKey) then (None, [])
    else
      match cleanedData with
      | None => (None, [])
      | Some cleanedData =>
          if (length cleanedData =? 0)%nat then (None, [])
          else
            let sampleData := sliceFromStart cleanedData AI_SAMPLE_SIZE in
            let '(apiResponse, sent) := callAIApi g fetch sampleData apiKey in
            match apiResponse with
            | Throws _ => (None, sent)
            | Returns apiResponse =>
                match parseAIResponse (Some apiResponse) with
                | Returns insights => (Some insights, sent)
                | Throws _ => (None, sent)
                end
            end
      end.

(** ** excelUtils.js *)

(** What [writeRangeData(range, data)] does before it writes: it refuses a
    grid without rows or with an empty first row, and otherwise resizes the
    range from its first cell by the offsets returned here. *)
Definition writeRangeOffsets (data : Grid) : Completion (Z * Z) :=
  let rowCount := Z.of_nat (length data) in
  let colCount :=
    match data with
    | first :: _ => Z.of_nat (length first)
    | [] => 0%Z
    end in
  if (rowCount =? 0)%Z || (colCount =? 0)%Z
  then Throws "Cannot write empty data to Excel range."
  else Returns ((rowCount - 1)%Z, (colCount - 1)%Z).

(** ** The pipeline in the words of the specification

    Sections 4.1 to 4.6 of the specification, stage by stage, to compare
    [cleanData] with.  Word characters are [A-Za-z0-9_], as in the code. *)

Module Spec.

(** "Empty kind, or Text kind whose trimmed content has zero length." *)
Definition isEmpty (cell : Cell) : bool :=
  match cell with
  | CNull | CUndefined => true
  | CStr s => match trim s with EmptyString => true | String _ _ => false end
  | _ => false
  end.

(** 4.1: "if Text, replace with the Text stripped of leading/trailing
    whitespace; all other Cell kinds pass through unchanged". *)
Definition whitespaceNormalizer (g : Grid) : Grid :=
  map (map (fun cell => match cell with CStr s => CStr (trim s) | _ => cell end)) g.

(** 4.2: "For every Text Cell with length > 0: lower-case the entire
    string, then upper-case the first character of each maximal run of
    word characters.  Empty Text cells and non-Text cells pass through". *)
Definition casingNormalizer (g : Grid) : Grid :=
  map (map (fun cell =>
              match cell with
              | CStr (String c r) => CStr (titleCaseOf isWordChar toUpperChar (String c r))
              | _ => cell
              end)) g.

(** 4.3: "The first occurrence of each distinct row is kept; every later
    occurrence is dropped", rows compared by their serialization. *)
Definition duplicateEliminator (g : Grid) : Grid := keepFirstOccurrences g.

(** 4.4a: "drop any row where every Cell is empty". *)
Definition rowRemoval (g : Grid) : Grid :=
  List.filter (fun row => existsb (fun cell => negb (isEmpty cell)) row) g.

(** 4.4b: "replace every remaining empty Cell with the placeholder.
    Non-empty cells pass through unchanged". *)
Definition cellReplacement (placeholder : string) (g : Grid) : Grid :=
  map (map (fun cell => if isEmpty cell then CStr placeholder else cell)) g.

(** The index of the first element that satisfies [p]. *)
Fixpoint firstIndexWhere {A : Type} (p : A -> bool) (l : list A) : option nat :=
  match l with
  | x :: rest => if p x then Some 0 else option_map S (firstIndexWhere p rest)
  | [] => None
  end.

(** 4.5: "returns the index of the first row that is not fully empty";
    0 when there is none. *)
Definition headerLocator (g : Grid) : nat :=
  match firstIndexWhere (fun row => existsb (fun cell => negb (isEmpty cell)) row) g with
  | Some i => i
  | None => 0
  end.

(** 4.6: the orchestrator; [None] is the input error. *)
Definition clean (rawGrid : option Grid) : option CleaningResult :=
  match rawGrid with
  | None | Some [] => None
  | Some g =>
      let final :=
        cellReplacement "N/A"
          (rowRemoval (duplicateEliminator (casingNormalizer (whitespaceNormalizer g)))) in
      Some {| cleanedData := final;
              headerRowIndex := headerLocator final;
              originalRowCount := length g;
              cleanedRowCount := length final |}
  end.

End Spec.

(** ** dataCleaner.js on cells of any primitive kind

    The functions take [any] value as a cell.  Beside the five kinds of
    [Cell] a cell can be a BigInt, on which [JSON.stringify] throws a
    TypeError.  The functions of dataCleaner.js are embedded a second time
    over this wider type, the call of [JSON.stringify] with its exception.
    (Cells that are objects are not modelled.) *)

Module Any.

Inductive Value : Type :=
  | Prim (cell : Cell)
  | BigInt (n : Z).

Definition Row : Type := list Value.
Definition Grid : Type := list Row.

Definition isBigInt (v : Value) : bool :=
  match v with BigInt _ => true | Prim _ => false end.

(** SerializeJSONProperty: "If value is a BigInt, throw a TypeError". *)
Definition serializeJSONProperty (v : Value) : Completion string :=
  match v with
  | Prim cell => Returns (serializeJSONProperty cell)
  | BigInt _ => Throws "TypeError"
  end.

(** The texts of the elements, in order, up to the first that throws. *)
Fixpoint serializeElements (row : Row) : Completion (list string) :=
  match row with
  | v :: rest =>
      match serializeJSONProperty v with
      | Throws message => Throws message
      | Returns t =>
          match serializeElements rest with
          | Throws message => Throws message
          | Returns texts => Returns (t :: texts)
          end
      end
  | [] => Returns []
  end.

Definition JSON_stringify (row : Row) : Completion string :=
  match serializeElements row with
  | Returns texts => Returns ("[" +:+ joinComma texts +:+ "]")
  | Throws message => Throws message
  end.

Definition toTitleCase (text : Value) : Value :=
  match text with
  | Prim (CStr (String c r)) =>
      Prim (CStr (replaceWordStart toUpperChar (toLowerCase (String c r))))
  | _ => text
  end.

Definition trimWhitespace (cell : Value) : Value :=
  match cell with
  | Prim (CStr s) => Prim (CStr (trim s))
  | _ => cell
  end.

Definition normalizeCasing (data : Grid) : Grid :=
  map (fun row =>
         map (fun cell =>
                match cell with
                | Prim (CStr s) => if (0 <? String.length s)%nat then toTitleCase cell else cell
                | _ => cell
                end) row) data.

(** The loop of [removeDuplicateRows] over the rows not yet visited. *)
Fixpoint dedupLoop (rows : Grid) (seen : gset string) (uniqueRows : Grid) : Completion Grid :=
  match rows with
  | row :: rest =>
      match JSON_stringify row with
      | Throws message => Throws message
      | Returns rowString =>
          if bool_decide (rowString ∈ seen) then dedupLoop rest seen uniqueRows
          else dedupLoop rest ({[rowString]} ∪ seen) (uniqueRows ++ [row])
      end
  | [] => Returns uniqueRows
  end.

Definition removeDuplicateRows (data : Grid) : Completion Grid := dedupLoop data ∅ [].

Definition isEmptyRow (row : Row) : bool :=
  forallb (fun cell =>
             match cell with
             | Prim CNull | Prim CUndefined => true
             | Prim (CStr s) => (String.length (trim s) =? 0)%nat
             | _ => false
             end) row.

Definition removeEmptyRows (data : Grid) : Grid :=
  List.filter (fun row => negb (isEmptyRow row)) data.

Definition replaceEmptyCells (data : Grid) : Grid :=
  map (fun row =>
         map (fun cell =>
                match cell with
                | Prim CNull | Prim CUndefined => Prim (CStr EMPTY_CELL_REPLACEMENT)
                | Prim (CStr s) =>
                    if (String.length (trim s) =? 0)%nat
                    then Prim (CStr EMPTY_CELL_REPLACEMENT) else cell
                | _ => cell
                end) row) data.

Fixpoint detectHeaderRowFrom (i : nat) (rows : Grid) : option nat :=
  match rows with
  | row :: rest => if negb (isEmptyRow row) then Some i else detectHeaderRowFrom (S i) rest
  | [] => None
  end.

Definition detectHeaderRow (data : Grid) : nat :=
  match detectHeaderRowFrom 0 data with
  | Some i => i
  | None => 0
  end.

Definition trimAllWhitespace (data : Grid) : Grid :=
  map (fun row => map trimWhitespace row) data.

Record CleaningResult : Type := {
  cleanedData : Grid;
  headerRowIndex : nat;
  originalRowCount : nat;
  cleanedRowCount : nat
}.

Definition cleanData (data : option Grid) : Completion CleaningResult :=
  match data with
  | None => Throws "No data provided to clean."
  | Some data =>
      if (length data =? 0)%nat then Throws "No data provided to clean."
      else
        let originalRowCount := length data in
        let cleaned := trimAllWhitespace data in
        let cleaned := normalizeCasing cleaned in
        match removeDuplicateRows cleaned with
        | Throws message => Throws message
        | Returns cleaned =>
            let cleaned := removeEmptyRows cleaned in
            let cleaned := replaceEmptyCells cleaned in
            let headerRowIndex := detectHeaderRow cleaned in
            let cleanedRowCount := length cleaned in
            Returns {| cleanedData := cleaned;
                       headerRowIndex := headerRowIndex;
                       originalRowCount := originalRowCount;
                       cleanedRowCount := cleanedRowCount |}
        end
  end.

End Any.

(** A grid of the five kinds of [Cell] as a grid of any values, and the
    same for a result. *)
Definition anyGrid (g : Grid) : Any.Grid := map (map Any.Prim) g.

Definition anyResult (r : CleaningResult) : Any.CleaningResult :=
  {| Any.cleanedData := anyGrid (cleanedData r);
     Any.headerRowIndex := headerRowIndex r;
     Any.originalRowCount := originalRowCount r;
     Any.cleanedRowCount := cleanedRowCount r |}.

Definition anyCompletion (c : Completion CleaningResult) : Completion Any.CleaningResult :=
  match c with
  | Returns r => Returns (anyResult r)
  | Throws message => Throws message
  end.

(** The cell that a value which is no BigInt is. *)
Definition primitiveOf (v : Any.Value) : Cell :=
  match v with
  | Any.Prim cell => cell
  | Any.BigInt _ => CUndefined
  end.

(** Some cell of the grid is a BigInt. *)
Definition hasBigInt (g : Any.Grid) : bool := existsb (existsb Any.isBigInt) g.

(** A grid that every stage changes: a row to trim and title-case, a row
    that then repeats it, a row with a blank cell, and two empty rows. *)
Definition pipelineGrid : Grid :=
  [ [CNull; CNull];
    [CStr "  alice  "; CStr "30"];
    [CStr "ALICE"; CStr "30"];
    [CStr "bob"; CStr "  "];
    [CStr " "; CStr EmptyString] ].

Definition pipelineResult : CleaningResult :=
  {| cleanedData := [ [CStr "Alice"; CStr "30"]; [CStr "Bob"; CStr "N/A"] ];
     headerRowIndex := 0;
     originalRowCount := 5;
     cleanedRowCount := 2 |}.

(** ** Notions used in the statements about these functions *)

(** A number cell holding NaN or an infinity. *)
Definition isNonFiniteCell (cell : Cell) : bool :=
  match cell with
  | CNum x => negb (isFiniteNumber x)
  | _ => false
  end.

(** The cell that [cleanData] makes of an input cell. *)
Definition cleanCell (cell : Cell) : Cell := replaceEmptyCell (normalizeCell cell).

(** The pieces of a text between the occurrences of a separator. *)
Fixpoint splitOn (sep : ascii) (s : string) : list string :=
  match s with
  | String c r =>
      if Ascii.eqb c sep then EmptyString :: splitOn sep r
      else match splitOn sep r with
           | piece :: pieces => String c piece :: pieces
           | [] => [String c EmptyString]
           end
  | EmptyString => [EmptyString]
  end.

(** Reading the tab-separated text back into rows of cell texts. *)
Definition readTable (t : string) : list (list string) :=
  map (splitOn tab) (splitOn newline t).

(** Neither a tab nor a line feed. *)
Definition isFieldChar (c : ascii) : bool := negb (Ascii.eqb c tab) && negb (Ascii.eqb c newline).

(** Globals with a key in [window.config] and no [process]. *)
Definition keyedGlobals : Globals :=
  {| window := Some {| config := Some {[ "AI_API_KEY" := CStr "k" ]} |}; process := None |}.

(** A network that is down, and one that answers every request with the
    same body. *)
Definition offline : Request -> FetchOutcome := fun _ => Rejected "Failed to fetch".

Definition answering (body : Json) : Request -> FetchOutcome :=
  fun _ => Resolved {| ok := true; status := 200; text := Returns EmptyString;
                       json := Returns body |}.

(** A chat-completion response with the members that [parseAIResponse] reads. *)
Definition responseWith (content : Json) (others : list Json) : Json :=
  JObject [("choices", JArray (JObject [("message", JObject [("content", content)])] :: others))].

(** * Properties *)

(** ** Code units *)

Ltac each_char c := destruct c as [[] [] [] [] [] [] [] []]; vm_compute; try reflexivity; try discriminate.

Lemma isWhiteSpace_toLowerChar c : isWhiteSpace (toLowerChar c) = isWhiteSpace c.
Proof. each_char c. Qed.

Lemma isWordChar_toLowerChar c : isWordChar (toLowerChar c) = isWordChar c.
Proof. each_char c. Qed.

Lemma toLowerChar_idem c : toLowerChar (toLowerChar c) = toLowerChar c.
Proof. each_char c. Qed.

Lemma toLowerChar_toUpperChar c : toLowerChar (toUpperChar c) = toLowerChar c.
Proof. each_char c. Qed.

Lemma isWordChar_toUpperChar c : isWordChar (toUpperChar c) = isWordChar c.
Proof. each_char c. Qed.

Lemma isWhiteSpace_toUpperChar c : isWhiteSpace (toUpperChar c) = isWhiteSpace c.
Proof. each_char c. Qed.

Lemma isWordChar_not_space c : isWordChar c = true -> isWhiteSpace c = false.
Proof. each_char c. Qed.

(** ** Lists *)

Section ListFacts.
Context {A B : Type}.

Lemma map_fixed (f : A -> A) (l : list A) :
  Forall (fun x => f x = x) l -> map f l = l.
Proof. induction 1 as [|x l Hx _ IH]; simpl; [reflexivity | now rewrite Hx, IH]. Qed.

Lemma filter_all (p : A -> bool) (l : list A) :
  Forall (fun x => p x = true) l -> List.filter p l = l.
Proof. induction 1 as [|x l Hx _ IH]; simpl; [reflexivity | now rewrite Hx, IH]. Qed.

Lemma lookup_map (f : A -> B) (l : list A) (i : nat) :
  map f l !! i = option_map f (l !! i).
Proof. revert i. induction l as [|x l IH]; intros [|i]; simpl; auto. Qed.

Lemma lookup_map_Some (f : A -> B) (l : list A) (i : nat) (y : B) :
  map f l !! i = Some y -> exists x, l !! i = Some x /\ y = f x.
Proof.
  rewrite lookup_map. destruct (l !! i) as [x|]; [|discriminate].
  simpl. intros H. injection H as <-. now exists x.
Qed.

Lemma lookup_map_of (f : A -> B) (l : list A) (i : nat) (x : A) :
  l !! i = Some x -> map f l !! i = Some (f x).
Proof. intros H. now rewrite lookup_map, H. Qed.
End ListFacts.

(** ** Strings *)

Lemma append_nil_r (s : string) : s +:+ EmptyString = s.
Proof. induction s as [|c s IH]; simpl; [reflexivity | now rewrite IH]. Qed.

Lemma append_assoc (a b c : string) : (a +:+ b) +:+ c = a +:+ (b +:+ c).
Proof. induction a as [|x a IH]; simpl; [reflexivity | now rewrite IH]. Qed.

Lemma length_zero_empty (s : string) : (String.length s =? 0)%nat = true <-> s = EmptyString.
Proof. destruct s; simpl; split; intros H; try reflexivity; discriminate. Qed.

Lemma trimStart_noLeadingSpace s : noLeadingSpace (trimStart s) = true.
Proof.
  induction s as [|c s IH]; simpl; [reflexivity|].
  destruct (isWhiteSpace c) eqn:E; simpl; [exact IH | now rewrite E].
Qed.

Lemma trimStart_fixed s : noLeadingSpace s = true -> trimStart s = s.
Proof. destruct s as [|c s]; simpl; [reflexivity|]. now destruct (isWhiteSpace c). Qed.

Lemma trimEnd_noLeadingSpace s : noLeadingSpace s = true -> noLeadingSpace (trimEnd s) = true.
Proof.
  destruct s as [|c s]; simpl; [reflexivity|]. intros H.
  destruct (trimEnd s); simpl; [|exact H].
  destruct (isWhiteSpace c) eqn:W; [discriminate | simpl; now rewrite W].
Qed.

Lemma trimEnd_idem s : trimEnd (trimEnd s) = trimEnd s.
Proof.
  induction s as [|c s IH]; simpl; [reflexivity|].
  destruct (trimEnd s) as [|d r] eqn:E.
  - destruct (isWhiteSpace c) eqn:W; simpl; [reflexivity | now rewrite W].
  - change (trimEnd (String c (String d r))) with
      (match trimEnd (String d r) with
       | EmptyString => if isWhiteSpace c then EmptyString else String c EmptyString
       | r' => String c r'
       end).
    now rewrite IH.
Qed.

Lemma trim_idem s : trim (trim s) = trim s.
Proof.
  unfold trim.
  rewrite (trimStart_fixed (trimEnd (trimStart s))).
  - apply trimEnd_idem.
  - apply trimEnd_noLeadingSpace, trimStart_noLeadingSpace.
Qed.

Lemma trimStart_toLowerCase s : trimStart (toLowerCase s) = toLowerCase (trimStart s).
Proof.
  induction s as [|c s IH]; simpl; [reflexivity|].
  rewrite isWhiteSpace_toLowerChar. now destruct (isWhiteSpace c).
Qed.

Lemma trimEnd_toLowerCase s : trimEnd (toLowerCase s) = toLowerCase (trimEnd s).
Proof.
  induction s as [|c s IH]; simpl; [reflexivity|].
  rewrite IH, isWhiteSpace_toLowerChar.
  destruct (trimEnd s); simpl; [|reflexivity].
  now destruct (isWhiteSpace c).
Qed.

Lemma trim_toLowerCase s : trim (toLowerCase s) = toLowerCase (trim s).
Proof. unfold trim. now rewrite trimStart_toLowerCase, trimEnd_toLowerCase. Qed.

Lemma replaceWordStartFrom_cons p c r :
  replaceWordStartFrom toUpperChar p (String c r)
  = String (replacedChar p c) (replaceWordStartFrom toUpperChar (isWordChar c) r).
Proof. reflexivity. Qed.

Lemma isWhiteSpace_replacedChar p c : isWhiteSpace (replacedChar p c) = isWhiteSpace c.
Proof. unfold replacedChar. destruct (_ && _); [apply isWhiteSpace_toUpperChar | reflexivity]. Qed.

Lemma toLowerChar_replacedChar p c : toLowerChar (replacedChar p c) = toLowerChar c.
Proof. unfold replacedChar. destruct (_ && _); [apply toLowerChar_toUpperChar | reflexivity]. Qed.

Lemma trimStart_replaceWordStart s :
  trimStart (replaceWordStart toUpperChar s) = replaceWordStart toUpperChar (trimStart s).
Proof.
  unfold replaceWordStart.
  induction s as [|c s IH]; [reflexivity|].
  rewrite replaceWordStartFrom_cons. simpl trimStart.
  rewrite isWhiteSpace_replacedChar.
  destruct (isWhiteSpace c) eqn:W.
  - destruct (isWordChar c) eqn:Wd; [|exact IH].
    apply isWordChar_not_space in Wd. congruence.
  - now rewrite replaceWordStartFrom_cons.
Qed.

Lemma trimEnd_replaceWordStartFrom p s :
  trimEnd (replaceWordStartFrom toUpperChar p s)
  = replaceWordStartFrom toUpperChar p (trimEnd s).
Proof.
  revert p. induction s as [|c s IH]; intros p; [reflexivity|].
  rewrite replaceWordStartFrom_cons. simpl trimEnd. rewrite IH, isWhiteSpace_replacedChar.
  destruct (trimEnd s) as [|d r]; simpl.
  - now destruct (isWhiteSpace c).
  - reflexivity.
Qed.

Lemma trim_replaceWordStart s :
  trim (replaceWordStart toUpperChar s) = replaceWordStart toUpperChar (trim s).
Proof.
  unfold trim. rewrite trimStart_replaceWordStart.
  apply trimEnd_replaceWordStartFrom.
Qed.

Lemma toLowerCase_idem s : toLowerCase (toLowerCase s) = toLowerCase s.
Proof. induction s as [|c s IH]; simpl; [reflexivity|]. now rewrite toLowerChar_idem, IH. Qed.

Lemma toLowerCase_replaceWordStartFrom p s :
  toLowerCase (replaceWordStartFrom toUpperChar p s) = toLowerCase s.
Proof.
  revert p. induction s as [|c s IH]; intros p; [reflexivity|].
  rewrite replaceWordStartFrom_cons. simpl. now rewrite toLowerChar_replacedChar, IH.
Qed.

Lemma titleCased_idem s : titleCased (titleCased s) = titleCased s.
Proof.
  unfold titleCased, replaceWordStart.
  now rewrite toLowerCase_replaceWordStartFrom, toLowerCase_idem.
Qed.

Lemma trim_titleCased s : trim (titleCased s) = titleCased (trim s).
Proof. unfold titleCased. now rewrite trim_replaceWordStart, trim_toLowerCase. Qed.

Lemma titleCased_empty s : titleCased s = EmptyString <-> s = EmptyString.
Proof. destruct s; simpl; split; intros H; try reflexivity; discriminate. Qed.

(** ** Cells *)

Lemma toTitleCase_CStr s : toTitleCase (CStr s) = CStr (titleCased s).
Proof. destruct s; reflexivity. Qed.

Lemma normalizeCasingCell_CStr s : normalizeCasingCell (CStr s) = CStr (titleCased s).
Proof. destruct s; reflexivity. Qed.

Lemma normalizeCell_CStr s : normalizeCell (CStr s) = CStr (titleCased (trim s)).
Proof. unfold normalizeCell. simpl trimWhitespace. apply normalizeCasingCell_CStr. Qed.

Lemma replaceEmptyCell_spec cell :
  replaceEmptyCell cell = if isEmptyCell cell then CStr EMPTY_CELL_REPLACEMENT else cell.
Proof. destruct cell; reflexivity. Qed.

Lemma replaceEmptyCell_nonempty cell : isEmptyCell (replaceEmptyCell cell) = false.
Proof.
  rewrite replaceEmptyCell_spec. destruct (isEmptyCell cell) eqn:E; [reflexivity | exact E].
Qed.

Lemma replaceEmptyCell_fixed cell : isEmptyCell cell = false -> replaceEmptyCell cell = cell.
Proof. intros H. now rewrite replaceEmptyCell_spec, H. Qed.

Lemma normalizeCell_idem cell : normalizeCell (normalizeCell cell) = normalizeCell cell.
Proof.
  destruct cell as [| | b | x | s]; try reflexivity.
  rewrite !normalizeCell_CStr.
  now rewrite trim_titleCased, trim_idem, titleCased_idem.
Qed.

(** A cell of the result is a fixed point of stages 1 and 2. *)
Lemma normalizeCell_replaced cell :
  normalizeCell (replaceEmptyCell (normalizeCell cell)) = replaceEmptyCell (normalizeCell cell).
Proof.
  rewrite replaceEmptyCell_spec.
  destruct (isEmptyCell (normalizeCell cell)); [reflexivity | apply normalizeCell_idem].
Qed.

(** ** Rows and grids *)

Lemma isEmptyRow_replaced row :
  isEmptyRow row = false -> isEmptyRow (map replaceEmptyCell row) = false.
Proof.
  destruct row as [|c row]; [discriminate|]. intros _.
  unfold isEmptyRow. simpl. now rewrite replaceEmptyCell_nonempty.
Qed.

Lemma removeEmptyRows_In row data :
  In row (removeEmptyRows data) <-> In row data /\ isEmptyRow row = false.
Proof.
  unfold removeEmptyRows. rewrite filter_In.
  now rewrite negb_true_iff.
Qed.

Lemma removeEmptyRows_length data : length (removeEmptyRows data) <= length data.
Proof. apply List.filter_length_le. Qed.

Lemma detectHeaderRow_first row rest :
  isEmptyRow row = false -> detectHeaderRow (row :: rest) = 0.
Proof. intros H. unfold detectHeaderRow. simpl. now rewrite H. Qed.

Lemma detectHeaderRow_cleaned data : Forall (fun row => isEmptyRow row = false) data ->
  detectHeaderRow data = 0.
Proof.
  intros H. destruct data as [|row rest]; [reflexivity|].
  apply detectHeaderRow_first. now inversion H.
Qed.

Lemma beforeReplacement_rows data :
  Forall (fun row => isEmptyRow row = false) (beforeReplacement data).
Proof.
  apply List.Forall_forall. intros row H.
  apply removeEmptyRows_In in H. tauto.
Qed.

Lemma cleanedGrid_rows data :
  Forall (fun row => isEmptyRow row = false) (cleanedGrid data).
Proof.
  unfold cleanedGrid, replaceEmptyCells.
  apply List.Forall_map.
  eapply List.Forall_impl; [|apply beforeReplacement_rows].
  intros row. apply isEmptyRow_replaced.
Qed.

Lemma cleanData_Some data :
  cleanData (Some data) =
  match data with
  | [] => Throws "No data provided to clean."
  | _ => Returns {| cleanedData := cleanedGrid data;
                    headerRowIndex := detectHeaderRow (cleanedGrid data);
                    originalRowCount := length data;
                    cleanedRowCount := length (cleanedGrid data) |}
  end.
Proof. destruct data; reflexivity. Qed.

Lemma cleanData_Returns data r :
  cleanData (Some data) = Returns r ->
  data <> [] /\
  r = {| cleanedData := cleanedGrid data;
         headerRowIndex := detectHeaderRow (cleanedGrid data);
         originalRowCount := length data;
         cleanedRowCount := length (cleanedGrid data) |}.
Proof.
  rewrite cleanData_Some. destruct data; [discriminate|].
  intros H. split; [discriminate | congruence].
Qed.

(** ** The loop of [removeDuplicateRows] *)

#[local] Opaque JSON_stringify.

Lemma seen_has before row :
  bool_decide (JSON_stringify row ∈ (list_to_set (map JSON_stringify before) : gset string))
  = negb (forallb (fun r => negb (String.eqb (JSON_stringify r) (JSON_stringify row))) before).
Proof.
  induction before as [|r before IH]; simpl.
  - rewrite bool_decide_eq_false_2; [reflexivity | set_solver].
  - destruct (String.eqb_spec (JSON_stringify r) (JSON_stringify row)) as [E|E]; simpl.
    + rewrite bool_decide_eq_true_2; [reflexivity|].
      apply elem_of_union_l, elem_of_singleton. congruence.
    + rewrite <- IH. apply bool_decide_ext.
      rewrite elem_of_union, elem_of_singleton. split; [intros [H|H]|]; auto; congruence.
Qed.

Lemma seen_snoc before row :
  {[JSON_stringify row]} ∪ (list_to_set (map JSON_stringify before) : gset string)
  = list_to_set (map JSON_stringify (before ++ [row])).
Proof.
  rewrite map_app, list_to_set_app_L. simpl.
  now rewrite (right_id_L ∅ (∪)), (comm_L (∪)).
Qed.

Lemma dedup_loop rows : forall before acc,
  fold_left dedupStep rows (list_to_set (map JSON_stringify before), acc)
  = (list_to_set (map JSON_stringify (before ++ rows)), acc ++ keepFirstFrom before rows).
Proof.
  induction rows as [|row rest IH]; intros before acc; simpl.
  - now rewrite !app_nil_r.
  - unfold dedupStep at 2. cbn [fst snd]. rewrite seen_has.
    destruct (forallb _ before) eqn:F; cbn [negb].
    + rewrite seen_snoc, IH. now rewrite <- !app_assoc.
    + assert (S : (list_to_set (map JSON_stringify before) : gset string)
                  = list_to_set (map JSON_stringify (before ++ [row]))).
      { rewrite <- seen_snoc. symmetry. apply subseteq_union_1_L, singleton_subseteq_l.
        eapply bool_decide_eq_true_1. now rewrite seen_has, F. }
      rewrite S, IH. now rewrite <- !app_assoc.
Qed.

Lemma removeDuplicateRows_keepFirst data :
  removeDuplicateRows data = keepFirstOccurrences data.
Proof.
  unfold removeDuplicateRows, keepFirstOccurrences.
  change (∅ : gset string) with (list_to_set (map JSON_stringify []) : gset string).
  now rewrite dedup_loop.
Qed.

Lemma keepFirstFrom_sublist rows : forall before, sublist (keepFirstFrom before rows) rows.
Proof.
  induction rows as [|row rest IH]; intros before; simpl; [constructor|].
  destruct (forallb _ before); simpl.
  - apply sublist_skip, IH.
  - apply sublist_cons, IH.
Qed.

Lemma keepFirstFrom_In rows : forall before row,
  In row (keepFirstFrom before rows) -> In row rows.
Proof.
  intros before row H. apply list_elem_of_In. apply list_elem_of_In in H.
  eapply elem_of_sublist; [exact H | apply keepFirstFrom_sublist].
Qed.

Lemma keepFirstFrom_fresh rows : forall before row,
  In row (keepFirstFrom before rows) ->
  ~ In (JSON_stringify row) (map JSON_stringify before).
Proof.
  induction rows as [|r rest IH]; intros before row H; simpl in H; [contradiction|].
  apply in_app_or in H. destruct H as [H|H].
  - destruct (forallb _ before) eqn:F; [|contradiction].
    destruct H as [->|[]]. intros Hin. apply in_map_iff in Hin.
    destruct Hin as (r' & E & Hr').
    rewrite forallb_forall in F. specialize (F r' Hr').
    rewrite E, String.eqb_refl in F. discriminate.
  - apply IH in H. intros Hin. apply H. rewrite map_app. apply in_or_app. now left.
Qed.

Lemma keepFirstFrom_NoDup rows : forall before,
  NoDup (map JSON_stringify (keepFirstFrom before rows)).
Proof.
  induction rows as [|r rest IH]; intros before; simpl; [constructor|].
  destruct (forallb _ before); simpl; [|apply IH].
  constructor; [|apply IH].
  intros Hin. apply list_elem_of_In, in_map_iff in Hin.
  destruct Hin as (r' & E & Hr').
  apply keepFirstFrom_fresh in Hr'. apply Hr'.
  rewrite E, map_app. apply in_or_app. right. now left.
Qed.

Lemma seen_In before row :
  forallb (fun r => negb (String.eqb (JSON_stringify r) (JSON_stringify row))) before = false ->
  In (JSON_stringify row) (map JSON_stringify before).
Proof.
  induction before as [|r before IH]; simpl; [discriminate|].
  destruct (String.eqb_spec (JSON_stringify r) (JSON_stringify row)) as [E|E]; simpl; auto.
Qed.

(** Every row of the input has its serialization among the survivors. *)
Lemma keepFirstFrom_complete rows : forall before row,
  In row rows ->
  In (JSON_stringify row) (map JSON_stringify before)
  \/ In (JSON_stringify row) (map JSON_stringify (keepFirstFrom before rows)).
Proof.
  induction rows as [|r rest IH]; intros before row H; [contradiction|].
  simpl. rewrite map_app, in_app_iff.
  destruct (forallb _ before) eqn:F.
  - destruct H as [->|H]; [right; left; now left|].
    destruct (IH (before ++ [r]) row H) as [IH'|IH']; [|now right; right].
    rewrite map_app, in_app_iff in IH'. destruct IH' as [IH'|[IH'|[]]]; [now left|].
    right. left. now left.
  - destruct H as [->|H]; [left; now apply seen_In|].
    destruct (IH (before ++ [r]) row H) as [IH'|IH']; [|now right; right].
    rewrite map_app, in_app_iff in IH'. destruct IH' as [IH'|[IH'|[]]]; [now left|].
    left. rewrite <- IH'. now apply seen_In.
Qed.

(** Rows with pairwise different serializations all survive. *)
Lemma keepFirstFrom_distinct rows : forall before,
  NoDup (map JSON_stringify (before ++ rows)) -> keepFirstFrom before rows = rows.
Proof.
  induction rows as [|r rest IH]; intros before H; [reflexivity|].
  simpl. replace (before ++ r :: rest) with ((before ++ [r]) ++ rest) in H
    by now rewrite <- app_assoc.
  rewrite (IH _ H).
  assert (F : forallb (fun r0 => negb (String.eqb (JSON_stringify r0) (JSON_stringify r))) before
              = true).
  { apply forallb_forall. intros r' Hr'. apply negb_true_iff, String.eqb_neq. intros E.
    rewrite !map_app in H. apply NoDup_app in H. destruct H as [H _].
    apply NoDup_app in H. destruct H as (_ & H & _).
    apply (H (JSON_stringify r')).
    - apply list_elem_of_In. now apply in_map.
    - rewrite E. simpl. set_solver. }
  now rewrite F.
Qed.

Lemma fresh_iff before row :
  forallb (fun r => negb (String.eqb (JSON_stringify r) (JSON_stringify row))) before = true
  <-> Forall (fun r => JSON_stringify r <> JSON_stringify row) before.
Proof.
  rewrite forallb_forall, List.Forall_forall. split; intros H r Hr.
  - apply String.eqb_neq, negb_true_iff, H, Hr.
  - apply negb_true_iff, String.eqb_neq, H, Hr.
Qed.

(** A row survives exactly when it stands at an index before which no row
    has its serialization. *)
Lemma keepFirstFrom_In_iff rows : forall before row,
  In row (keepFirstFrom before rows) <->
  exists i, rows !! i = Some row
            /\ Forall (fun r => JSON_stringify r <> JSON_stringify row) (before ++ take i rows).
Proof.
  induction rows as [|r rest IH]; intros before row.
  - split; [contradiction | intros (i & H & _); destruct i; discriminate].
  - cbn [keepFirstFrom]. rewrite in_app_iff, IH. split.
    + intros [H | (i & Hi & HF)].
      * destruct (forallb _ before) eqn:F; [|contradiction]. destruct H as [->|[]].
        exists 0. split; [reflexivity|]. cbn [take]. rewrite app_nil_r. now apply fresh_iff.
      * exists (S i). split; [exact Hi|]. cbn [take]. now rewrite <- app_assoc in HF.
    + intros ([|i] & Hi & HF).
      * injection Hi as ->. left. cbn [take] in HF. rewrite app_nil_r in HF.
        apply fresh_iff in HF. rewrite HF. now left.
      * right. exists i. split; [exact Hi|]. now rewrite <- app_assoc.
Qed.

Lemma removeDuplicateRows_In_iff data row :
  In row (removeDuplicateRows data) <->
  exists i, data !! i = Some row
            /\ forall j r, j < i -> data !! j = Some r -> JSON_stringify r <> JSON_stringify row.
Proof.
  rewrite removeDuplicateRows_keepFirst. unfold keepFirstOccurrences.
  rewrite keepFirstFrom_In_iff. cbn [app].
  split; intros (i & Hi & H); exists i; (split; [exact Hi|]).
  - intros j r Hj Hr. rewrite Forall_lookup in H. apply (H j).
    now rewrite lookup_take_lt.
  - apply Forall_lookup. intros j r Hr. apply lookup_take_Some in Hr.
    destruct Hr as [Hr Hj]. now apply (H j).
Qed.

Lemma removeDuplicateRows_NoDup data : NoDup (map JSON_stringify (removeDuplicateRows data)).
Proof. rewrite removeDuplicateRows_keepFirst. apply keepFirstFrom_NoDup. Qed.

Lemma removeDuplicateRows_length data : length (removeDuplicateRows data) <= length data.
Proof. rewrite removeDuplicateRows_keepFirst. apply sublist_length, keepFirstFrom_sublist. Qed.

Lemma removeDuplicateRows_In row data : In row (removeDuplicateRows data) -> In row data.
Proof. rewrite removeDuplicateRows_keepFirst. apply keepFirstFrom_In. Qed.

Lemma NoDup_keys_filter (p : Row -> bool) data :
  NoDup (map JSON_stringify data) -> NoDup (map JSON_stringify (List.filter p data)).
Proof.
  induction data as [|r data IH]; simpl; [auto|]. intros H.
  apply NoDup_cons in H. destruct H as [H1 H2].
  destruct (p r); simpl; [|auto].
  apply NoDup_cons. split; [|auto].
  intros Hin. apply H1. apply list_elem_of_In. apply list_elem_of_In, in_map_iff in Hin.
  destruct Hin as (r' & E & Hr'). apply filter_In in Hr'. rewrite <- E. apply in_map. tauto.
Qed.

Lemma beforeReplacement_NoDup data : NoDup (map JSON_stringify (beforeReplacement data)).
Proof.
  unfold beforeReplacement, removeEmptyRows. apply NoDup_keys_filter.
  rewrite removeDuplicateRows_keepFirst. apply keepFirstFrom_NoDup.
Qed.

#[local] Transparent JSON_stringify.

(** ** The text of a cell *)

Lemma allChars_app p a b : allChars p (a +:+ b) = allChars p a && allChars p b.
Proof. induction a as [|c a IH]; simpl; [reflexivity|]. now rewrite IH, andb_assoc. Qed.

Lemma allChars_substring p s : forall n m,
  allChars p s = true -> allChars p (substring n m s) = true.
Proof.
  induction s as [|c s IH]; intros n m H; [now destruct n, m|].
  simpl in H. apply andb_true_iff in H. destruct H as [Hc Hs].
  destruct n; simpl.
  - destruct m; simpl; [reflexivity|]. now rewrite Hc, IH.
  - now apply IH.
Qed.

Lemma allChars_weaken (p q : ascii -> bool) s :
  (forall c, p c = true -> q c = true) -> allChars p s = true -> allChars q s = true.
Proof.
  intros Hpq. induction s as [|c s IH]; simpl; [reflexivity|].
  intros H. apply andb_true_iff in H. destruct H as [Hc Hs].
  now rewrite (Hpq _ Hc), IH.
Qed.

Lemma allChars_zeros n : allChars isNumberChar (zeros n) = true.
Proof. induction n; simpl; [reflexivity | exact IHn]. Qed.

Lemma allChars_uint u : allChars isNumberChar (NilEmpty.string_of_uint u) = true.
Proof. induction u; simpl; auto. Qed.

Lemma isNumberChar_plain c : isNumberChar c = true -> isPlainChar c = true.
Proof. each_char c. Qed.

Lemma numberToString_chars x :
  isFiniteNumber x = true -> allChars isNumberChar (numberToString x) = true.
Proof.
  destruct x as [| neg | neg | neg s n]; try discriminate; intros _; [reflexivity|].
  unfold numberToString, digitsOf.
  repeat match goal with
  | |- context [if ?b then _ else _] => destruct b
  end;
  rewrite ?allChars_app, ?andb_true_iff; repeat split;
  auto using allChars_zeros, allChars_uint, allChars_substring.
Qed.

Lemma append_nonempty_r a c b : a +:+ String c b <> EmptyString.
Proof. destruct a; discriminate. Qed.

Lemma append_nonempty_l a b : a <> EmptyString -> a +:+ b <> EmptyString.
Proof. destruct a; [congruence | discriminate]. Qed.

Lemma digitsOf_nonempty s : digitsOf s <> EmptyString.
Proof.
  unfold digitsOf. pose proof (DecimalPos.Unsigned.to_uint_nonnil s) as H.
  destruct (Pos.to_uint s); [congruence | discriminate ..].
Qed.

Lemma append_nonempty a b : b <> EmptyString -> a +:+ b <> EmptyString.
Proof. destruct a; simpl; [auto | discriminate]. Qed.

Lemma numberToString_nonempty x : numberToString x <> EmptyString.
Proof.
  destruct x as [| neg | neg | neg s n]; try discriminate; [destruct neg; discriminate|].
  unfold numberToString. apply append_nonempty.
  repeat match goal with
  | |- context [if ?b then _ else _] => destruct b
  end;
  first [ apply append_nonempty_l, digitsOf_nonempty
        | apply append_nonempty; discriminate
        | discriminate ].
Qed.

Lemma serialized_nonempty v : serializeJSONProperty v <> EmptyString.
Proof.
  destruct v as [| | b | x | s]; try discriminate.
  - destruct b; discriminate.
  - simpl. destruct (isFiniteNumber x); [apply numberToString_nonempty | discriminate].
Qed.

(** The text of a cell that is not a string has no comma, bracket or quote. *)
Lemma serialized_plain v :
  isString v = false -> allChars isPlainChar (serializeJSONProperty v) = true.
Proof.
  destruct v as [| | b | x | s]; try discriminate; intros _; try reflexivity.
  - now destruct b.
  - simpl. destruct (isFiniteNumber x) eqn:F; [|reflexivity].
    eapply allChars_weaken; [apply isNumberChar_plain | now apply numberToString_chars].
Qed.

Lemma takePlain_app p : forall d rest,
  allChars isPlainChar p = true -> isDelimiter d = true ->
  takePlain (p +:+ String d rest) = (p, String d rest).
Proof.
  induction p as [|c p IH]; intros d rest Hp Hd.
  - simpl. unfold isDelimiter in Hd. now rewrite Hd.
  - simpl in Hp. apply andb_true_iff in Hp. destruct Hp as [Hc Hp].
    simpl. rewrite (IH _ _ Hp Hd).
    assert (E : (code c =? 44)%N || (code c =? 93)%N = false) by (revert Hc; each_char c).
    now rewrite E.
Qed.

Lemma takeQuoted_char c t a b :
  takeQuotedFrom false t = (a, b) ->
  takeQuotedFrom false (quoteJSONChar c +:+ t) = (quoteJSONChar c +:+ a, b).
Proof.
  intros H. destruct c as [[] [] [] [] [] [] [] []]; simpl; rewrite H; reflexivity.
Qed.

Lemma takeQuoted_body s t :
  takeQuotedFrom false (quoteJSONBody s +:+ t) = (quoteJSONBody s, t).
Proof.
  induction s as [|c s IH]; [reflexivity|].
  simpl quoteJSONBody. rewrite append_assoc. now apply takeQuoted_char.
Qed.

Lemma splitToken_serialized v d rest :
  isDelimiter d = true ->
  splitToken (serializeJSONProperty v +:+ String d rest)
  = (serializeJSONProperty v, String d rest).
Proof.
  intros Hd. destruct (isString v) eqn:S.
  - destruct v; try discriminate. simpl serializeJSONProperty. unfold quoteJSONString.
    simpl. now rewrite takeQuoted_body.
  - pose proof (serialized_plain v S) as Hp.
    destruct (serializeJSONProperty v) as [|c p] eqn:E.
    + simpl. revert Hd. unfold isDelimiter. each_char d.
    + rewrite <- (takePlain_app (String c p) d rest Hp Hd).
      simpl in Hp. apply andb_true_iff in Hp. destruct Hp as [Hc _].
      assert (Q : (code c =? 34)%N = false) by (revert Hc; each_char c).
      change (String c p +:+ String d rest) with (String c (p +:+ String d rest)).
      unfold splitToken. now rewrite Q.
Qed.

Lemma unquote_char c t :
  unquoteJSONBody (quoteJSONChar c +:+ t) = option_map (String c) (unquoteJSONBody t).
Proof. destruct c as [[] [] [] [] [] [] [] []]; reflexivity. Qed.

Lemma unquote_quote s : unquoteJSONBody (quoteJSONBody s) = Some s.
Proof.
  induction s as [|c s IH]; [reflexivity|].
  simpl quoteJSONBody. now rewrite unquote_char, IH.
Qed.

Lemma quoteJSONString_inj s1 s2 : quoteJSONString s1 = quoteJSONString s2 -> s1 = s2.
Proof.
  unfold quoteJSONString. intros H. injection H as H.
  apply (f_equal unquoteJSONBody) in H. rewrite !unquote_quote in H. congruence.
Qed.

(** ** The text of a row *)

Lemma rowText_cons x xs :
  joinComma (x :: xs) +:+ "]" = x +:+ closeRow xs.
Proof.
  destruct xs as [|y ys]; [reflexivity|].
  unfold closeRow. change (joinComma (x :: y :: ys)) with (x +:+ "," +:+ joinComma (y :: ys)).
  now rewrite !append_assoc.
Qed.

Lemma closeRow_delimited xs : exists d rest, isDelimiter d = true /\ closeRow xs = String d rest.
Proof.
  destruct xs as [|x xs];
    [exists "]"%char, EmptyString | exists ","%char, (joinComma (x :: xs) +:+ "]")];
    split; reflexivity.
Qed.

Lemma rowText_inj r1 : forall r2,
  joinComma (map serializeJSONProperty r1) +:+ "]" = joinComma (map serializeJSONProperty r2) +:+ "]" ->
  map serializeJSONProperty r1 = map serializeJSONProperty r2.
Proof.
  induction r1 as [|v r1 IH]; intros [|w r2] H; [reflexivity| | |].
  - exfalso. simpl map in H. rewrite rowText_cons in H.
    destruct (closeRow_delimited (map serializeJSONProperty r2)) as (d & rest & Hd & E).
    rewrite E in H. apply (f_equal splitToken) in H.
    rewrite splitToken_serialized in H by exact Hd.
    simpl in H. injection H as H _. symmetry in H. now apply serialized_nonempty in H.
  - exfalso. simpl map in H. rewrite rowText_cons in H.
    destruct (closeRow_delimited (map serializeJSONProperty r1)) as (d & rest & Hd & E).
    rewrite E in H. apply (f_equal splitToken) in H.
    rewrite splitToken_serialized in H by exact Hd.
    simpl in H. injection H as H _. now apply serialized_nonempty in H.
  - simpl map in *. rewrite !rowText_cons in H.
    destruct (closeRow_delimited (map serializeJSONProperty r1)) as (d1 & t1 & Hd1 & E1).
    destruct (closeRow_delimited (map serializeJSONProperty r2)) as (d2 & t2 & Hd2 & E2).
    pose proof H as H'. rewrite E1, E2 in H'. apply (f_equal splitToken) in H'.
    rewrite !splitToken_serialized in H' by assumption.
    injection H' as Hv Hd Ht. rewrite Hv. f_equal.
    rewrite Hv in H. apply String.app_inj in H.
    clear E1 E2 Hd Ht Hd1 Hd2.
    destruct r1 as [|a r1], r2 as [|b r2]; try reflexivity; try discriminate.
    apply IH. unfold closeRow in H. simpl map in H. injection H as H. exact H.
Qed.

Lemma JSON_stringify_texts r1 r2 :
  JSON_stringify r1 = JSON_stringify r2 <->
  map serializeJSONProperty r1 = map serializeJSONProperty r2.
Proof.
  unfold JSON_stringify. split; intros H.
  - apply rowText_inj. now injection H.
  - now rewrite H.
Qed.

Lemma map_eq_Forall2 (r1 r2 : Row) :
  map serializeJSONProperty r1 = map serializeJSONProperty r2 <->
  length r1 = length r2 /\ Forall2 sameCell r1 r2.
Proof.
  revert r2. induction r1 as [|a r1 IH]; intros [|b r2]; simpl.
  - split; [intros _; split; [reflexivity | constructor] | reflexivity].
  - split; [discriminate | intros [H _]; discriminate].
  - split; [discriminate | intros [H _]; discriminate].
  - split.
    + intros H. injection H as Hab H. apply IH in H. destruct H as [Hl HF].
      split; [now rewrite Hl | now constructor].
    + intros [Hl HF]. inversion HF; subst. f_equal; [assumption|].
      apply IH. split; [now injection Hl | assumption].
Qed.

(** ** Equality of cells under serialization *)

Lemma number_text_not x (t : string) :
  isFiniteNumber x = true -> allChars isNumberChar t = false -> numberToString x <> t.
Proof. intros F H E. rewrite <- E, numberToString_chars in H by exact F. discriminate. Qed.

Lemma sameCell_class a b : sameCell a b <-> cellClass a = cellClass b.
Proof.
  unfold sameCell. split.
  - destruct a as [| | [] | x | s], b as [| | [] | y | t]; simpl;
      try reflexivity; try discriminate;
      try (destruct (isFiniteNumber x) eqn:Fx); try (destruct (isFiniteNumber y) eqn:Fy);
      try reflexivity; try discriminate; intros H;
      try (exfalso; revert H; apply number_text_not; [assumption | reflexivity]);
      try (exfalso; symmetry in H; revert H; apply number_text_not; [assumption | reflexivity]).
    + now rewrite H.
    + now rewrite (quoteJSONString_inj _ _ H).
  - destruct a as [| | [] | x | s], b as [| | [] | y | t]; simpl;
      try reflexivity; try discriminate;
      try (destruct (isFiniteNumber x) eqn:Fx); try (destruct (isFiniteNumber y) eqn:Fy);
      try reflexivity; try discriminate; intros H; congruence.
Qed.

Lemma sameCell_null v : sameCell CNull v <-> writtenAsNull v = true.
Proof.
  rewrite sameCell_class.
  destruct v as [| | [] | x | s]; simpl; try (split; [discriminate | discriminate]);
    try (split; reflexivity).
  destruct (isFiniteNumber x); simpl; split; try reflexivity; discriminate.
Qed.

(** ** Title case by runs *)

Lemma runs_replace s :
  replaceWordStartFrom toUpperChar false s
  = concatRuns (map (capitalizeRun toUpperChar) (runs isWordChar s))
  /\ replaceWordStartFrom toUpperChar true s
     = match runs isWordChar s with
       | [] => EmptyString
       | (_, t) :: rs => t +:+ concatRuns (map (capitalizeRun toUpperChar) rs)
       end.
Proof.
  induction s as [|c r [IH1 IH2]]; [split; reflexivity|].
  rewrite !replaceWordStartFrom_cons. unfold replacedChar, wordBoundary.
  simpl runs. destruct (runs isWordChar r) as [|[w t] rs];
    destruct (isWordChar c) eqn:W; simpl in *;
    rewrite ?IH1, ?IH2; try (split; reflexivity);
    destruct w; simpl; rewrite ?append_nil_r; split; reflexivity.
Qed.

Lemma titleCased_by_runs s : titleCased s = titleCaseOf isWordChar toUpperChar s.
Proof. unfold titleCased, titleCaseOf, replaceWordStart. apply runs_replace. Qed.

Lemma normalizeCasingCell_title_case_runs s :
  normalizeCasingCell (CStr s) = CStr (titleCaseOf isWordChar toUpperChar s).
Proof. now rewrite normalizeCasingCell_CStr, titleCased_by_runs. Qed.

(** ** A second pass over a cleaned grid *)

Lemma isEmptyCell_iff cell : isEmptyCell cell = true <-> EmptyCell cell.
Proof.
  unfold EmptyCell. destruct cell as [| | b | x | s]; simpl.
  - split; auto.
  - split; auto.
  - split; [discriminate | intros [H|[H|(s & H & _)]]; discriminate].
  - split; [discriminate | intros [H|[H|(s & H & _)]]; discriminate].
  - rewrite Nat.eqb_eq. split.
    + intros H. right. right. now exists s.
    + intros [H|[H|(s' & H & L)]]; try discriminate. now injection H as ->.
Qed.

Lemma stages12_cells data :
  normalizeCasing (trimAllWhitespace data) = map (map normalizeCell) data.
Proof.
  unfold normalizeCasing, trimAllWhitespace. rewrite map_map.
  apply map_ext. intros row. now rewrite map_map.
Qed.

(** Every row before replacement is the image of an input row under stages
    1 and 2. *)
Lemma beforeReplacement_origin data row :
  In row (beforeReplacement data) -> exists row0, In row0 data /\ row = map normalizeCell row0.
Proof.
  unfold beforeReplacement. intros H.
  apply removeEmptyRows_In in H. destruct H as [H _].
  apply removeDuplicateRows_In in H. rewrite stages12_cells in H.
  apply in_map_iff in H. destruct H as (row0 & E & H). now exists row0.
Qed.

Lemma cleanedGrid_cells data :
  Forall (Forall (fun cell => isEmptyCell cell = false /\ normalizeCell cell = cell))
         (cleanedGrid data).
Proof.
  unfold cleanedGrid, replaceEmptyCells.
  apply List.Forall_forall. intros row H.
  apply in_map_iff in H. destruct H as (pre & <- & H).
  apply beforeReplacement_origin in H. destruct H as (row0 & _ & ->).
  rewrite map_map. apply List.Forall_forall. intros cell H.
  apply in_map_iff in H. destruct H as (c0 & <- & _).
  split; [apply replaceEmptyCell_nonempty | apply normalizeCell_replaced].
Qed.

Lemma beforeReplacement_length data : length (beforeReplacement data) <= length data.
Proof.
  unfold beforeReplacement.
  etransitivity; [apply removeEmptyRows_length|].
  etransitivity; [apply removeDuplicateRows_length|].
  rewrite stages12_cells. now rewrite length_map.
Qed.

Lemma cleanedGrid_length data : length (cleanedGrid data) <= length data.
Proof.
  unfold cleanedGrid, replaceEmptyCells. rewrite length_map. apply beforeReplacement_length.
Qed.

(** A cleaned grid whose rows have pairwise different serializations is a
    fixed point of the five stages. *)
Lemma cleanedGrid_fixed data :
  NoDup (map JSON_stringify (cleanedGrid data)) ->
  cleanedGrid (cleanedGrid data) = cleanedGrid data.
Proof.
  intros ND. pose proof (cleanedGrid_cells data) as HC.
  pose proof (cleanedGrid_rows data) as HR.
  set (out := cleanedGrid data) in *.
  unfold cleanedGrid at 1. unfold beforeReplacement.
  assert (E12 : normalizeCasing (trimAllWhitespace out) = out).
  { rewrite stages12_cells. apply map_fixed.
    eapply List.Forall_impl; [|exact HC]. intros row Hrow. apply map_fixed.
    eapply List.Forall_impl; [|exact Hrow]. now intros cell [_ H]. }
  rewrite E12.
  assert (E3 : removeDuplicateRows out = out).
  { rewrite removeDuplicateRows_keepFirst. now apply keepFirstFrom_distinct. }
  rewrite E3.
  assert (E4 : removeEmptyRows out = out).
  { apply filter_all. eapply List.Forall_impl; [|exact HR].
    intros row H. now rewrite H. }
  rewrite E4.
  unfold replaceEmptyCells. apply map_fixed.
  eapply List.Forall_impl; [|exact HC]. intros row Hrow. apply map_fixed.
  eapply List.Forall_impl; [|exact Hrow]. intros cell [H _].
  now apply replaceEmptyCell_fixed.
Qed.

(** * The claims *)

(** ** Scenarios of the specification *)

Example scenario_A : cleanData (Some scenarioA) = Returns resultA.
Proof. vm_compute. reflexivity. Qed.

Example scenario_A_stages :
  normalizeCasing (trimAllWhitespace scenarioA)
  = [ [CStr "Alice"; CStr "30"]; [CStr "Alice"; CStr "30"];
      [CStr EmptyString; CStr EmptyString] ]
  /\ removeDuplicateRows (normalizeCasing (trimAllWhitespace scenarioA))
     = [ [CStr "Alice"; CStr "30"]; [CStr EmptyString; CStr EmptyString] ]
  /\ beforeReplacement scenarioA = [ [CStr "Alice"; CStr "30"] ].
Proof. repeat split; vm_compute; reflexivity. Qed.

Example scenario_B : cleanData (Some scenarioB) = Returns resultB.
Proof. vm_compute. reflexivity. Qed.

Example scenario_C : cleanData (Some []) = Throws "No data provided to clean.".
Proof. reflexivity. Qed.

Example scenario_D :
  let row := [CStr "a"; CNum five; CBool true] in
  exists r, cleanData (Some (repeat row 10)) = Returns r /\ cleanedRowCount r = 1.
Proof. eexists. split; vm_compute; reflexivity. Qed.

(** ** C1 *)

Lemma any_serializeElements (row : Row) :
  Any.serializeElements (map Any.Prim row) = Returns (map serializeJSONProperty row).
Proof. induction row as [|c row IH]; simpl; [reflexivity | now rewrite IH]. Qed.

Lemma any_JSON_stringify (row : Row) :
  Any.JSON_stringify (map Any.Prim row) = Returns (JSON_stringify row).
Proof. unfold Any.JSON_stringify. now rewrite any_serializeElements. Qed.

Lemma any_dedupLoop (rows : Grid) : forall (seen : gset string) (acc : Grid),
  Any.dedupLoop (anyGrid rows) seen (anyGrid acc)
  = Returns (anyGrid (fold_left dedupStep rows (seen, acc)).2).
Proof.
  induction rows as [|row rest IH]; intros seen acc; [reflexivity|].
  cbn [anyGrid map Any.dedupLoop fold_left]. rewrite any_JSON_stringify.
  unfold dedupStep at 2. cbn [fst snd].
  destruct (bool_decide (JSON_stringify row ∈ seen)).
  - apply IH.
  - rewrite <- (IH ({[JSON_stringify row]} ∪ seen) (acc ++ [row])). f_equal.
    unfold anyGrid. now rewrite map_app.
Qed.

Lemma any_trimAllWhitespace g :
  Any.trimAllWhitespace (anyGrid g) = anyGrid (trimAllWhitespace g).
Proof.
  unfold Any.trimAllWhitespace, anyGrid, trimAllWhitespace. rewrite !map_map.
  apply map_ext. intros row. rewrite !map_map. apply map_ext. now intros [| | b | x | s].
Qed.

Lemma any_normalizeCasing g :
  Any.normalizeCasing (anyGrid g) = anyGrid (normalizeCasing g).
Proof.
  unfold Any.normalizeCasing, anyGrid, normalizeCasing. rewrite !map_map.
  apply map_ext. intros row. rewrite !map_map. apply map_ext.
  intros [| | b | x | [|c r]]; reflexivity.
Qed.

Lemma any_isEmptyRow row : Any.isEmptyRow (map Any.Prim row) = isEmptyRow row.
Proof.
  unfold Any.isEmptyRow, isEmptyRow. induction row as [|c row IH]; [reflexivity|].
  simpl. rewrite IH. now destruct c.
Qed.

Lemma any_removeEmptyRows g :
  Any.removeEmptyRows (anyGrid g) = anyGrid (removeEmptyRows g).
Proof.
  unfold Any.removeEmptyRows, anyGrid, removeEmptyRows.
  induction g as [|row g IH]; [reflexivity|]. simpl.
  rewrite any_isEmptyRow, IH. now destruct (isEmptyRow row).
Qed.

Lemma any_replaceEmptyCells g :
  Any.replaceEmptyCells (anyGrid g) = anyGrid (replaceEmptyCells g).
Proof.
  unfold Any.replaceEmptyCells, anyGrid, replaceEmptyCells. rewrite !map_map.
  apply map_ext. intros row. rewrite !map_map. apply map_ext.
  intros [| | b | x | s]; try reflexivity. simpl.
  now destruct (String.length (trim s) =? 0)%nat.
Qed.

Lemma any_detectHeaderRowFrom g : forall i,
  Any.detectHeaderRowFrom i (anyGrid g) = detectHeaderRowFrom i g.
Proof.
  induction g as [|row g IH]; intros i; [reflexivity|].
  cbn [anyGrid map Any.detectHeaderRowFrom detectHeaderRowFrom].
  rewrite any_isEmptyRow. destruct (negb (isEmptyRow row)); [reflexivity | apply IH].
Qed.

Lemma any_cleanData (g : Grid) :
  Any.cleanData (Some (anyGrid g)) = anyCompletion (cleanData (Some g)).
Proof.
  rewrite cleanData_Some. destruct g as [|row rest]; [reflexivity|].
  set (g := row :: rest). unfold Any.cleanData.
  replace (length (anyGrid g) =? 0)%nat with false by reflexivity. cbv zeta.
  rewrite any_trimAllWhitespace, any_normalizeCasing.
  unfold Any.removeDuplicateRows.
  change (@nil Any.Row) with (anyGrid []). rewrite any_dedupLoop.
  change (fold_left dedupStep (normalizeCasing (trimAllWhitespace g)) (∅, [])).2
    with (removeDuplicateRows (normalizeCasing (trimAllWhitespace g))).
  rewrite any_removeEmptyRows, any_replaceEmptyCells.
  unfold Any.detectHeaderRow. rewrite any_detectHeaderRowFrom.
  unfold anyCompletion, anyResult, cleanedGrid, beforeReplacement, anyGrid. cbn.
  now rewrite !length_map.
Qed.

Lemma serializeElements_bigint row :
  existsb Any.isBigInt row = true -> Any.serializeElements row = Throws "TypeError".
Proof.
  induction row as [|v row IH]; [discriminate|]. simpl.
  destruct v as [c|n]; simpl; [|reflexivity]. intros H. now rewrite (IH H).
Qed.

Lemma primitive_row row :
  existsb Any.isBigInt row = false -> row = map Any.Prim (map primitiveOf row).
Proof.
  induction row as [|v row IH]; [reflexivity|]. simpl.
  destruct v as [c|n]; simpl; [|discriminate]. intros H. now rewrite <- (IH H).
Qed.

Lemma primitive_grid g : hasBigInt g = false -> g = anyGrid (map (map primitiveOf) g).
Proof.
  unfold hasBigInt, anyGrid. induction g as [|row g IH]; [reflexivity|]. simpl.
  intros H. apply orb_false_iff in H. destruct H as [Hr Hg].
  now rewrite <- (primitive_row row Hr), <- (IH Hg).
Qed.

Lemma dedupLoop_bigint rows : forall seen acc,
  hasBigInt rows = true -> Any.dedupLoop rows seen acc = Throws "TypeError".
Proof.
  unfold hasBigInt. induction rows as [|row rest IH]; intros seen acc H; [discriminate|].
  simpl in H. cbn [Any.dedupLoop]. unfold Any.JSON_stringify.
  destruct (existsb Any.isBigInt row) eqn:B.
  - now rewrite (serializeElements_bigint row B).
  - simpl in H. rewrite (primitive_row row B), any_serializeElements.
    destruct (bool_decide _); now apply IH.
Qed.

Lemma hasBigInt_stages12 g :
  hasBigInt (Any.normalizeCasing (Any.trimAllWhitespace g)) = hasBigInt g.
Proof.
  unfold hasBigInt, Any.normalizeCasing, Any.trimAllWhitespace.
  induction g as [|row g IH]; [reflexivity|]. cbn [map existsb]. rewrite IH. f_equal.
  clear IH. induction row as [|v row IH]; [reflexivity|]. cbn [map existsb]. rewrite IH.
  f_equal. destruct v as [[| | b | x | s]|n]; try reflexivity.
  simpl. destruct (trim s); reflexivity.
Qed.

(** C1, as the claim states it, fails: the grid [[[1n]]] is not null and
    has a row, and [cleanData] raises on it - the TypeError of
    [JSON.stringify] in [removeDuplicateRows] - and returns no result. *)
Lemma bigint_cell_raises :
  Any.cleanData (Some [[Any.BigInt 1]]) = Throws "TypeError"
  /\ length [[Any.BigInt 1]] = 1
  /\ ~ (exists r, Any.cleanData (Some [[Any.BigInt 1]]) = Returns r).
Proof. repeat split. intros [r H]. discriminate H. Qed.

(** C1 (amended): [cleanData] raises its input error exactly when the grid
    is absent or has no rows, and then returns no result.  On a grid with
    rows whose cells are strings, numbers, booleans, [null] or [undefined]
    it returns a result - the one of the embedding over [Cell] - and no
    stage raises.  The one stage that can raise is [removeDuplicateRows],
    exactly on a grid with a BigInt cell; with such a cell [cleanData]
    raises a TypeError. *)
Theorem cleanData_raises :
  (forall data : option Any.Grid,
      Any.cleanData data = Throws "No data provided to clean."
      <-> (data = None \/ data = Some []))
  /\ (forall g : Any.Grid, g <> [] ->
        (hasBigInt g = false -> exists r, Any.cleanData (Some g) = Returns r)
        /\ (hasBigInt g = true -> Any.cleanData (Some g) = Throws "TypeError"))
  /\ (forall g : Grid, Any.cleanData (Some (anyGrid g)) = anyCompletion (cleanData (Some g)))
  /\ (forall g : Grid, g <> [] -> exists r, cleanData (Some g) = Returns r)
  /\ (forall d : Any.Grid,
        (hasBigInt d = true -> Any.removeDuplicateRows d = Throws "TypeError")
        /\ (hasBigInt d = false -> exists kept, Any.removeDuplicateRows d = Returns kept)).
Proof.
  assert (R : forall d : Any.Grid,
             (hasBigInt d = true -> Any.removeDuplicateRows d = Throws "TypeError")
             /\ (hasBigInt d = false -> exists kept, Any.removeDuplicateRows d = Returns kept)).
  { intros d. split.
    - intros H. now apply dedupLoop_bigint.
    - intros H. rewrite (primitive_grid d H). unfold Any.removeDuplicateRows.
      change (@nil Any.Row) with (anyGrid []). rewrite any_dedupLoop. eauto. }
  assert (N : forall g : Grid, g <> [] -> exists r, cleanData (Some g) = Returns r).
  { intros g Hg. rewrite cleanData_Some. destruct g; [contradiction | eauto]. }
  assert (B : forall g : Any.Grid, g <> [] ->
             (hasBigInt g = false -> exists r, Any.cleanData (Some g) = Returns r)
             /\ (hasBigInt g = true -> Any.cleanData (Some g) = Throws "TypeError")).
  { intros g Hg. split; intros H.
    - rewrite (primitive_grid g H), any_cleanData.
      destruct (N (map (map primitiveOf) g)) as [r Hr].
      + destruct g; [contradiction | discriminate].
      + rewrite Hr. simpl. eauto.
    - destruct g as [|row rest]; [contradiction|].
      unfold Any.cleanData. cbn [length Nat.eqb]. cbv zeta.
      destruct (R (Any.normalizeCasing (Any.trimAllWhitespace (row :: rest)))) as [R1 _].
      rewrite R1; [reflexivity|]. now rewrite hasBigInt_stages12. }
  split; [|split; [exact B | split; [exact any_cleanData | split; [exact N | exact R]]]].
  intros [g|]; [|split; auto].
  destruct g as [|row rest]; [split; auto|].
  split; [|intros [H|H]; discriminate].
  destruct (B (row :: rest)) as [B0 B1]; [discriminate|].
  destruct (hasBigInt (row :: rest)).
  - rewrite B1 by reflexivity. discriminate.
  - destruct B0 as [r Hr]; [reflexivity|]. rewrite Hr. discriminate.
Qed.

(** The theorem on a grid of strings and empty cells and on a grid with a
    BigInt after two rows that are fine. *)
Lemma cleanData_raises_examples :
  Any.cleanData (Some (anyGrid pipelineGrid)) = Returns (anyResult pipelineResult)
  /\ Any.cleanData (Some [[Any.Prim CNull]; [Any.Prim (CStr "a")]; [Any.BigInt 7]])
     = Throws "TypeError".
Proof.
  destruct cleanData_raises as (_ & B & A & _).
  split.
  - rewrite A. vm_compute. reflexivity.
  - apply B; [discriminate | reflexivity].
Defined.

(** ** C2 *)

Lemma spec_isEmpty cell : Spec.isEmpty cell = isEmptyCell cell.
Proof. destruct cell as [| | b | x | s]; try reflexivity. simpl. now destruct (trim s). Qed.

Lemma spec_row_not_empty row :
  existsb (fun cell => negb (Spec.isEmpty cell)) row = negb (isEmptyRow row).
Proof.
  unfold isEmptyRow. induction row as [|c row IH]; [reflexivity|].
  simpl. rewrite IH, spec_isEmpty. now destruct (isEmptyCell c).
Qed.

Lemma spec_whitespaceNormalizer g : trimAllWhitespace g = Spec.whitespaceNormalizer g.
Proof. reflexivity. Qed.

Lemma spec_casingNormalizer g : normalizeCasing g = Spec.casingNormalizer g.
Proof.
  unfold normalizeCasing, Spec.casingNormalizer. apply map_ext. intros row.
  apply map_ext. intros [| | b | x | [|c r]]; try reflexivity.
  now rewrite normalizeCasingCell_title_case_runs.
Qed.

Lemma spec_rowRemoval g : removeEmptyRows g = Spec.rowRemoval g.
Proof.
  unfold removeEmptyRows, Spec.rowRemoval. apply filter_ext. intros row.
  now rewrite spec_row_not_empty.
Qed.

Lemma spec_cellReplacement g : replaceEmptyCells g = Spec.cellReplacement "N/A" g.
Proof.
  unfold replaceEmptyCells, Spec.cellReplacement. apply map_ext. intros row.
  apply map_ext. intros cell. now rewrite replaceEmptyCell_spec, spec_isEmpty.
Qed.

Lemma spec_firstIndex rows : forall i,
  detectHeaderRowFrom i rows
  = option_map (Nat.add i)
      (Spec.firstIndexWhere (fun row => existsb (fun cell => negb (Spec.isEmpty cell)) row) rows).
Proof.
  induction rows as [|row rest IH]; intros i; [reflexivity|].
  simpl. rewrite spec_row_not_empty.
  destruct (negb (isEmptyRow row)); simpl; [f_equal; lia|].
  rewrite IH.
  match goal with
  | |- context [Spec.firstIndexWhere ?p rest] => destruct (Spec.firstIndexWhere p rest)
  end; simpl; [f_equal; lia | reflexivity].
Qed.

Lemma spec_headerLocator g : detectHeaderRow g = Spec.headerLocator g.
Proof.
  unfold detectHeaderRow, Spec.headerLocator. rewrite spec_firstIndex.
  match goal with
  | |- context [Spec.firstIndexWhere ?p g] => destruct (Spec.firstIndexWhere p g)
  end; reflexivity.
Qed.

(** C2: [cleanData] is the pipeline of the specification.  Each function
    of the code does what its stage says - trimming every text, title-casing
    every non-empty text, keeping the first occurrence of every row,
    dropping the rows whose cells are all empty, putting the placeholder in
    the empty cells, locating the first row that is not empty - and
    [cleanData] composes them in that order with the two row counts, or
    fails on an absent grid and on a grid without rows.  Duplicates are
    judged on the trimmed and case-normalized rows: a row survives the
    third stage exactly when no earlier row of the second stage's output
    has its serialization. *)
Theorem cleanData_refines_specification :
  (forall g : Grid,
      trimAllWhitespace g = Spec.whitespaceNormalizer g
      /\ normalizeCasing g = Spec.casingNormalizer g
      /\ removeDuplicateRows g = Spec.duplicateEliminator g
      /\ removeEmptyRows g = Spec.rowRemoval g
      /\ replaceEmptyCells g = Spec.cellReplacement "N/A" g
      /\ detectHeaderRow g = Spec.headerLocator g)
  /\ (forall data : option Grid,
        cleanData data
        = match Spec.clean data with
          | Some r => Returns r
          | None => Throws "No data provided to clean."
          end)
  /\ (forall (g : Grid) (row : Row),
        In row (removeDuplicateRows (normalizeCasing (trimAllWhitespace g))) <->
        exists i,
          Spec.casingNormalizer (Spec.whitespaceNormalizer g) !! i = Some row
          /\ forall j r, j < i ->
               Spec.casingNormalizer (Spec.whitespaceNormalizer g) !! j = Some r ->
               JSON_stringify r <> JSON_stringify row).
Proof.
  split; [|split].
  - intros g. repeat split.
    + apply spec_casingNormalizer.
    + apply removeDuplicateRows_keepFirst.
    + apply spec_rowRemoval.
    + apply spec_cellReplacement.
    + apply spec_headerLocator.
  - intros [[|row rest]|]; try reflexivity.
    rewrite cleanData_Some. unfold cleanedGrid, beforeReplacement.
    set (g := row :: rest).
    rewrite spec_headerLocator, spec_cellReplacement, spec_rowRemoval.
    rewrite removeDuplicateRows_keepFirst, spec_casingNormalizer.
    reflexivity.
  - intros g row. rewrite spec_casingNormalizer.
    apply removeDuplicateRows_In_iff.
Qed.

(** The theorem on a grid that every stage changes. *)
Lemma cleanData_refines_specification_pipelineGrid :
  cleanData (Some pipelineGrid) = Returns pipelineResult
  /\ trimAllWhitespace pipelineGrid
     = [ [CNull; CNull]; [CStr "alice"; CStr "30"]; [CStr "ALICE"; CStr "30"];
         [CStr "bob"; CStr EmptyString]; [CStr EmptyString; CStr EmptyString] ]
  /\ normalizeCasing (trimAllWhitespace pipelineGrid)
     = [ [CNull; CNull]; [CStr "Alice"; CStr "30"]; [CStr "Alice"; CStr "30"];
         [CStr "Bob"; CStr EmptyString]; [CStr EmptyString; CStr EmptyString] ]
  /\ removeDuplicateRows (normalizeCasing (trimAllWhitespace pipelineGrid))
     = [ [CNull; CNull]; [CStr "Alice"; CStr "30"];
         [CStr "Bob"; CStr EmptyString]; [CStr EmptyString; CStr EmptyString] ]
  /\ beforeReplacement pipelineGrid
     = [ [CStr "Alice"; CStr "30"]; [CStr "Bob"; CStr EmptyString] ]
  /\ replaceEmptyCells (beforeReplacement pipelineGrid)
     = [ [CStr "Alice"; CStr "30"]; [CStr "Bob"; CStr "N/A"] ].
Proof.
  destruct cleanData_refines_specification as (_ & Hc & _).
  split; [rewrite Hc; vm_compute; reflexivity|].
  repeat split; vm_compute; reflexivity.
Defined.

(** ** C3 *)

(** C3: in the result of [cleanData], [cleanedRowCount] is the number of
    rows of [cleanedData], [originalRowCount] is the number of rows of the
    input, [cleanedRowCount <= originalRowCount], and the header index is
    below [cleanedRowCount] whenever that is positive. *)
Theorem cleaningResult_invariant (g : Grid) (r : CleaningResult) :
  cleanData (Some g) = Returns r ->
  cleanedRowCount r = length (cleanedData r)
  /\ originalRowCount r = length g
  /\ cleanedRowCount r <= originalRowCount r
  /\ (0 < cleanedRowCount r -> headerRowIndex r < cleanedRowCount r).
Proof.
  intros H. apply cleanData_Returns in H. destruct H as [_ ->]. simpl.
  repeat split.
  - apply cleanedGrid_length.
  - intros L. now rewrite (detectHeaderRow_cleaned _ (cleanedGrid_rows g)).
Qed.

Lemma cleaningResult_invariant_scenarioA :
  cleanData (Some scenarioA) = Returns resultA
  /\ cleanedRowCount resultA = length (cleanedData resultA)
  /\ originalRowCount resultA = length scenarioA
  /\ cleanedRowCount resultA <= originalRowCount resultA
  /\ (0 < cleanedRowCount resultA -> headerRowIndex resultA < cleanedRowCount resultA).
Proof.
  split; [vm_compute; reflexivity|].
  apply (cleaningResult_invariant scenarioA resultA). vm_compute. reflexivity.
Defined.

(** ** C4 *)

(** C4: the returned grid is the grid of surviving rows with
    [replaceEmptyCell] applied to every cell; none of its cells is [null],
    [undefined] or a string whose trimmed content has zero length; the
    replacement turns every empty cell into the literal ["N/A"] and leaves
    every other cell as it is. *)
Theorem cleaned_cells_not_empty (g : Grid) (r : CleaningResult) :
  cleanData (Some g) = Returns r ->
  cleanedData r = map (map replaceEmptyCell) (beforeReplacement g)
  /\ (forall row cell, In row (cleanedData r) -> In cell row ->
        cell <> CNull /\ cell <> CUndefined
        /\ forall s, cell = CStr s -> String.length (trim s) <> 0)
  /\ (forall cell, EmptyCell cell -> replaceEmptyCell cell = CStr "N/A")
  /\ (forall cell, ~ EmptyCell cell -> replaceEmptyCell cell = cell).
Proof.
  intros H. apply cleanData_Returns in H. destruct H as [_ ->]. simpl.
  split; [reflexivity|]. split; [|split].
  - intros row cell Hrow Hcell.
    pose proof (cleanedGrid_cells g) as HC.
    rewrite List.Forall_forall in HC. specialize (HC row Hrow).
    rewrite List.Forall_forall in HC. destruct (HC cell Hcell) as [HE _].
    repeat split; try (intros ->; discriminate).
    intros s -> L. simpl in HE. rewrite L in HE. discriminate.
  - intros cell HE. apply isEmptyCell_iff in HE.
    now rewrite replaceEmptyCell_spec, HE.
  - intros cell HE. apply replaceEmptyCell_fixed.
    destruct (isEmptyCell cell) eqn:E; [|reflexivity].
    exfalso. now apply HE, isEmptyCell_iff.
Qed.

Lemma cleaned_cells_not_empty_scenarioB :
  cleanData (Some scenarioB) = Returns resultB
  /\ cleanedData resultB = map (map replaceEmptyCell) (beforeReplacement scenarioB)
  /\ replaceEmptyCell CNull = CStr "N/A".
Proof.
  assert (H : cleanData (Some scenarioB) = Returns resultB) by (vm_compute; reflexivity).
  destruct (cleaned_cells_not_empty scenarioB resultB H) as (H1 & _ & H3 & _).
  split; [exact H | split; [exact H1 | apply H3; left; reflexivity]].
Defined.

(** ** C10 *)

(** C10: the header index returned by [cleanData] is 0. *)
Theorem headerRowIndex_zero (g : Grid) (r : CleaningResult) :
  cleanData (Some g) = Returns r -> headerRowIndex r = 0.
Proof.
  intros H. apply cleanData_Returns in H. destruct H as [_ ->]. simpl.
  apply detectHeaderRow_cleaned, cleanedGrid_rows.
Qed.

Lemma headerRowIndex_zero_scenarioB :
  cleanData (Some scenarioB) = Returns resultB /\ headerRowIndex resultB = 0.
Proof.
  split; [vm_compute; reflexivity|].
  apply (headerRowIndex_zero scenarioB resultB). vm_compute. reflexivity.
Defined.

(** ** C5 *)

Lemma sameCell_equivalence : Equivalence sameCell.
Proof.
  unfold sameCell. split.
  - intros a. reflexivity.
  - intros a b H. now symmetry.
  - intros a b c H1 H2. now transitivity (serializeJSONProperty b).
Qed.

(** C5, as the claim states it, fails: a number cell holding NaN is
    serialized like an Empty cell, so a row with NaN is dropped as a
    duplicate of the row with [null] in its place. *)
Lemma nan_row_equals_null_row :
  sameCell CNull (CNum NaN)
  /\ isEmptyMarker (CNum NaN) = false
  /\ JSON_stringify [CNull] = JSON_stringify [CNum NaN]
  /\ removeDuplicateRows [ [CNull]; [CNum NaN] ] = [ [CNull] ].
Proof. repeat split; vm_compute; reflexivity. Qed.

(** C5 (amended): [removeDuplicateRows] keeps the first occurrence of each
    distinct row and drops every later one, in input order; two rows are
    duplicates exactly when they have the same length and their cells are
    pairwise equal under serialization; that equality holds exactly between
    cells of the same class, where strings are told apart from every other
    kind and from each other, booleans by value, finite numbers by their
    printed form, and [null], [undefined], NaN and the infinities are all
    written [null] - so an Empty cell equals the Empty cells and the
    non-finite numbers only, never the empty string, and the string "5"
    does not equal the number 5; the equality is an equivalence. *)
Theorem removeDuplicateRows_first_occurrences :
  (forall data : Grid,
      removeDuplicateRows data = keepFirstOccurrences data
      /\ sublist (removeDuplicateRows data) data
      /\ NoDup (map JSON_stringify (removeDuplicateRows data))
      /\ forall row : Row,
           In row (removeDuplicateRows data) <->
           exists i, data !! i = Some row
                     /\ forall j r, j < i -> data !! j = Some r ->
                                    JSON_stringify r <> JSON_stringify row)
  /\ (forall r1 r2 : Row,
        JSON_stringify r1 = JSON_stringify r2 <->
        length r1 = length r2 /\ Forall2 sameCell r1 r2)
  /\ (forall a b : Cell, sameCell a b <-> cellClass a = cellClass b)
  /\ (forall e v : Cell, isEmptyMarker e = true -> (sameCell e v <-> writtenAsNull v = true))
  /\ (forall e : Cell, isEmptyMarker e = true -> ~ sameCell e (CStr EmptyString))
  /\ ~ sameCell (CStr "5") (CNum five)
  /\ Equivalence sameCell.
Proof.
  split; [|split; [|split; [|split; [|split; [|split]]]]].
  - intros data. split; [apply removeDuplicateRows_keepFirst|].
    split; [rewrite removeDuplicateRows_keepFirst; apply keepFirstFrom_sublist|].
    split; [apply removeDuplicateRows_NoDup|].
    intros row. apply removeDuplicateRows_In_iff.
  - intros r1 r2. rewrite JSON_stringify_texts. apply map_eq_Forall2.
  - apply sameCell_class.
  - intros e v He. destruct e; try discriminate; apply sameCell_null.
  - intros e He. destruct e; try discriminate; intros H; discriminate H.
  - intros H. discriminate H.
  - apply sameCell_equivalence.
Qed.

Example JSON_stringify_row :
  JSON_stringify [CNum five; CBool true; CNull; CUndefined; CNum (Infinity true);
                  CNum (Finite true 35 1); CNum (Finite false 1 22)]
  = "[5,true,null,null,null,-3.5,1e+21]".
Proof. reflexivity. Qed.

(** ** C6 *)

Lemma replaceEmptyCell_row_fixed (row : Row) :
  (forall cell, In cell row -> ~ EmptyCell cell) -> map replaceEmptyCell row = row.
Proof.
  intros H. apply map_fixed. apply List.Forall_forall. intros cell Hc.
  apply replaceEmptyCell_fixed. destruct (isEmptyCell cell) eqn:E; [|reflexivity].
  exfalso. apply (H cell Hc). now apply isEmptyCell_iff.
Qed.

Example colliding_rows_remain :
  cleanData (Some collidingGrid)
  = Returns {| cleanedData := [ [CStr "A"; CStr "N/A"]; [CStr "A"; CStr "N/A"] ];
               headerRowIndex := 0;
               originalRowCount := 2;
               cleanedRowCount := 2 |}
  /\ beforeReplacement collidingGrid = [ [CStr "A"; CNull]; [CStr "A"; CStr "N/A"] ].
Proof. split; vm_compute; reflexivity. Qed.

(** C6: two rows at different indices of the returned grid come from two
    rows that had different serializations before the placeholder was
    inserted; so their own serializations differ unless replacement made
    them equal, which needs an empty cell in one of the two - and such a
    pair does remain, since nothing removes duplicates after the
    replacement. *)
Theorem cleaned_rows_distinct_before_replacement :
  (forall (g : Grid) (r : CleaningResult), cleanData (Some g) = Returns r ->
     cleanedData r = replaceEmptyCells (beforeReplacement g)
     /\ NoDup (map JSON_stringify (beforeReplacement g))
     /\ forall (i j : nat) (ri rj : Row),
          i <> j -> cleanedData r !! i = Some ri -> cleanedData r !! j = Some rj ->
          exists pi pj : Row,
            beforeReplacement g !! i = Some pi /\ beforeReplacement g !! j = Some pj
            /\ ri = map replaceEmptyCell pi /\ rj = map replaceEmptyCell pj
            /\ JSON_stringify pi <> JSON_stringify pj
            /\ ((forall cell, In cell pi -> ~ EmptyCell cell) ->
                (forall cell, In cell pj -> ~ EmptyCell cell) ->
                JSON_stringify ri <> JSON_stringify rj))
  /\ (exists (r : CleaningResult) (ri rj : Row),
        cleanData (Some collidingGrid) = Returns r
        /\ cleanedData r !! 0 = Some ri /\ cleanedData r !! 1 = Some rj
        /\ JSON_stringify ri = JSON_stringify rj).
Proof.
  split.
  - intros g r H. apply cleanData_Returns in H. destruct H as [_ ->]. cbn [cleanedData].
    split; [reflexivity|]. split; [apply beforeReplacement_NoDup|].
    intros i j ri rj Hij Hi Hj.
    apply (lookup_map_Some (map replaceEmptyCell)) in Hi, Hj.
    destruct Hi as (pi & Ei & ->). destruct Hj as (pj & Ej & ->).
    exists pi, pj. repeat split; try assumption.
    + intros E. apply Hij.
      eapply (NoDup_lookup _ i j); [apply beforeReplacement_NoDup | |].
      * apply (lookup_map_of JSON_stringify), Ei.
      * rewrite E. apply (lookup_map_of JSON_stringify), Ej.
    + intros Fi Fj. rewrite (replaceEmptyCell_row_fixed pi Fi), (replaceEmptyCell_row_fixed pj Fj).
      intros E. apply Hij.
      eapply (NoDup_lookup _ i j); [apply beforeReplacement_NoDup | |].
      * apply (lookup_map_of JSON_stringify), Ei.
      * rewrite E. apply (lookup_map_of JSON_stringify), Ej.
  - eexists _, _, _. split; [apply colliding_rows_remain|]. repeat split.
Qed.

Lemma cleaned_rows_distinct_collidingGrid :
  exists pi pj : Row,
    beforeReplacement collidingGrid !! 0 = Some pi
    /\ beforeReplacement collidingGrid !! 1 = Some pj
    /\ [CStr "A"; CStr "N/A"] = map replaceEmptyCell pi
    /\ [CStr "A"; CStr "N/A"] = map replaceEmptyCell pj
    /\ JSON_stringify pi <> JSON_stringify pj.
Proof.
  destruct cleaned_rows_distinct_before_replacement as [H _].
  destruct (H collidingGrid _ (proj1 colliding_rows_remain)) as (_ & _ & H').
  destruct (H' 0 1 [CStr "A"; CStr "N/A"] [CStr "A"; CStr "N/A"])
    as (pi & pj & H1 & H2 & H3 & H4 & H5 & _);
    [discriminate | reflexivity | reflexivity |].
  exists pi, pj. repeat split; assumption.
Defined.

(** ** C7 *)

(** C7, as the claim states it, fails: a grid whose rows are all empty is
    cleaned to the grid without rows, which has neither blank content nor
    duplicates, and the second pass throws on it. *)
Lemma second_pass_throws_on_empty_result :
  exists r : CleaningResult,
    cleanData (Some emptyRowGrid) = Returns r
    /\ cleanedData r = []
    /\ NoDup (map JSON_stringify (cleanedData r))
    /\ cleanData (Some (cleanedData r)) = Throws "No data provided to clean."
    /\ ~ (exists r', cleanData (Some (cleanedData r)) = Returns r'
                     /\ cleanedData r' = cleanedData r).
Proof.
  eexists. split; [vm_compute; reflexivity|]. simpl.
  repeat split; [constructor|]. intros (r' & H & _). discriminate.
Qed.

(** Without the condition on serializations a second pass does change the
    grid: it merges the rows that the placeholder made equal. *)
Example second_pass_merges_colliding_rows :
  exists r1 r2,
    cleanData (Some collidingGrid) = Returns r1
    /\ cleanData (Some (cleanedData r1)) = Returns r2
    /\ cleanedData r1 = [ [CStr "A"; CStr "N/A"]; [CStr "A"; CStr "N/A"] ]
    /\ cleanedData r2 = [ [CStr "A"; CStr "N/A"] ].
Proof. eexists _, _. repeat split; vm_compute; reflexivity. Qed.

(** C7 (amended): when the first pass leaves at least one row and no two
    rows of its result have the same serialization, a second pass returns
    the same grid (with both counts equal to its number of rows); when the
    first pass leaves no row, the second pass fails with the input error. *)
Theorem cleanData_idempotent (g : Grid) (r : CleaningResult) :
  cleanData (Some g) = Returns r ->
  (cleanedData r <> [] ->
   NoDup (map JSON_stringify (cleanedData r)) ->
   cleanData (Some (cleanedData r))
   = Returns {| cleanedData := cleanedData r;
                headerRowIndex := headerRowIndex r;
                originalRowCount := cleanedRowCount r;
                cleanedRowCount := cleanedRowCount r |})
  /\ (cleanedData r = [] ->
      cleanData (Some (cleanedData r)) = Throws "No data provided to clean.").
Proof.
  intros H. apply cleanData_Returns in H. destruct H as [_ ->].
  cbn [cleanedData headerRowIndex cleanedRowCount originalRowCount] in *. split.
  - intros Hne ND. rewrite cleanData_Some. rewrite (cleanedGrid_fixed g ND).
    destruct (cleanedGrid g) as [|row rest]; [contradiction | reflexivity].
  - intros ->. reflexivity.
Qed.

(** The theorem on a first pass that leaves two rows, and on one that
    leaves none. *)
Lemma cleanData_idempotent_examples :
  cleanData (Some pipelineGrid) = Returns pipelineResult
  /\ cleanData (Some (cleanedData pipelineResult))
     = Returns {| cleanedData := cleanedData pipelineResult;
                  headerRowIndex := 0;
                  originalRowCount := 2;
                  cleanedRowCount := 2 |}
  /\ cleanData (Some emptyRowGrid)
     = Returns {| cleanedData := []; headerRowIndex := 0;
                  originalRowCount := 1; cleanedRowCount := 0 |}
  /\ cleanData (Some []) = Throws "No data provided to clean.".
Proof.
  assert (H1 : cleanData (Some pipelineGrid) = Returns pipelineResult)
    by (vm_compute; reflexivity).
  assert (H2 : cleanData (Some emptyRowGrid)
               = Returns {| cleanedData := []; headerRowIndex := 0;
                            originalRowCount := 1; cleanedRowCount := 0 |})
    by (vm_compute; reflexivity).
  split; [exact H1|]. split; [|split; [exact H2|]].
  - apply (proj1 (cleanData_idempotent pipelineGrid pipelineResult H1)).
    + discriminate.
    + apply (bool_decide_unpack _). vm_compute. exact I.
  - apply (proj2 (cleanData_idempotent emptyRowGrid _ H2)). reflexivity.
Defined.

(** ** C8 *)

(** C8, as the claim states it, fails: casing keeps the surrounding white
    space, so the results for [" a"] and for its trimmed form differ. *)
Lemma casing_of_trimmed_differs :
  normalizeCasingCell (trimWhitespace (CStr " a")) = CStr "A"
  /\ normalizeCasingCell (CStr " a") = CStr " A"
  /\ normalizeCasingCell (trimWhitespace (CStr " a")) <> normalizeCasingCell (CStr " a")
  /\ normalizeCasing (trimAllWhitespace [[CStr " a"]]) <> normalizeCasing [[CStr " a"]].
Proof. repeat split; discriminate. Qed.

(** C8 (amended): trimming and case normalization commute, on every cell
    and so on every grid: normalizing the trimmed value gives the trimmed
    form of the normalized value. *)
Theorem normalizeCasing_trim_stable :
  (forall cell : Cell,
     normalizeCasingCell (trimWhitespace cell) = trimWhitespace (normalizeCasingCell cell))
  /\ (forall data : Grid,
        normalizeCasing (trimAllWhitespace data) = trimAllWhitespace (normalizeCasing data)).
Proof.
  assert (C : forall cell,
             normalizeCasingCell (trimWhitespace cell) = trimWhitespace (normalizeCasingCell cell)).
  { intros [| | b | x | s]; try reflexivity.
    simpl trimWhitespace at 1. rewrite !normalizeCasingCell_CStr. simpl.
    now rewrite trim_titleCased. }
  split; [exact C|].
  intros data. unfold normalizeCasing, trimAllWhitespace. rewrite !map_map.
  apply map_ext. intros row. rewrite !map_map. apply map_ext. exact C.
Qed.

(** ** C9 *)

Lemma normalizeCasing_shape data :
  length (normalizeCasing data) = length data
  /\ map (@length Cell) (normalizeCasing data) = map (@length Cell) data.
Proof.
  unfold normalizeCasing. rewrite length_map, map_map. split; [reflexivity|].
  apply map_ext. intros row. apply length_map.
Qed.

Lemma normalizeCasingCell_pass_through cell :
  isString cell = false \/ cell = CStr EmptyString -> normalizeCasingCell cell = cell.
Proof. intros [H| ->]; [destruct cell; try reflexivity; discriminate | reflexivity]. Qed.

(** On a non-empty string the casing is title case over the word characters
    [A-Za-z0-9_]. *)
Lemma normalizeCasingCell_title_case s :
  normalizeCasingCell (CStr s) = CStr (titleCaseOf isWordChar toUpperChar s).
Proof. now rewrite normalizeCasingCell_CStr, titleCased_by_runs. Qed.

(** C9: the code does not do what the claim says on a word with a letter
    outside [A-Za-z]: the accented letter counts as a separator, so the
    letter after it is capitalized, where title case over Unicode words
    capitalizes the accented first letter only. *)
Theorem toTitleCase_breaks_accented_word :
  toTitleCase (CStr ecole) = CStr eCole
  /\ normalizeCasingCell (CStr ecole) = CStr eCole
  /\ titleCaseOf isUnicodeWordChar toUnicodeUpperChar ecole = Ecole
  /\ (exists r, cleanData (Some [[CStr ecole]]) = Returns r
                /\ cleanedData r = [[CStr eCole]]).
Proof.
  repeat split; try (vm_compute; reflexivity).
  eexists. split; vm_compute; reflexivity.
Qed.

(** * Further properties of the code *)

(** ** Shared lemmas *)

Lemma isEmptyCell_normalizeCell cell : isEmptyCell (normalizeCell cell) = isEmptyCell cell.
Proof.
  destruct cell as [| | b | x | s]; try reflexivity.
  rewrite normalizeCell_CStr. simpl.
  rewrite trim_titleCased, trim_idem.
  destruct (trim s); reflexivity.
Qed.

Lemma isEmptyRow_normalized row : isEmptyRow (map normalizeCell row) = isEmptyRow row.
Proof.
  unfold isEmptyRow. induction row as [|c row IH]; simpl; [reflexivity|].
  now rewrite isEmptyCell_normalizeCell, IH.
Qed.

Lemma sublist_map {A B} (f : A -> B) (l1 l2 : list A) :
  sublist l1 l2 -> sublist (map f l1) (map f l2).
Proof. induction 1; simpl; constructor; assumption. Qed.

Lemma sublist_filter {A} (p : A -> bool) (l : list A) : sublist (List.filter p l) l.
Proof.
  induction l as [|x l IH]; simpl; [constructor|].
  destruct (p x); constructor; assumption.
Qed.

Lemma cleanedGrid_sublist data : sublist (cleanedGrid data) (map (map cleanCell) data).
Proof.
  unfold cleanedGrid, replaceEmptyCells, beforeReplacement, removeEmptyRows.
  replace (map (map cleanCell) data)
    with (map (map replaceEmptyCell) (normalizeCasing (trimAllWhitespace data))).
  - apply sublist_map. etransitivity; [apply sublist_filter|].
    rewrite removeDuplicateRows_keepFirst. apply keepFirstFrom_sublist.
  - rewrite stages12_cells, map_map. apply map_ext. intros row. now rewrite map_map.
Qed.

Lemma cleanedGrid_origin data row :
  In row (cleanedGrid data) ->
  exists row0, In row0 data /\ isEmptyRow row0 = false /\ row = map cleanCell row0.
Proof.
  unfold cleanedGrid, replaceEmptyCells. intros H.
  apply in_map_iff in H. destruct H as (pre & <- & H).
  pose proof H as H'. apply beforeReplacement_origin in H'. destruct H' as (row0 & H0 & ->).
  unfold beforeReplacement in H. apply removeEmptyRows_In in H. destruct H as [_ HE].
  rewrite isEmptyRow_normalized in HE.
  exists row0. repeat split; [assumption .. |]. now rewrite map_map.
Qed.

(** Cells that are not written as [null] and have the same text are empty
    together. *)
Lemma sameCell_empty a b :
  sameCell a b ->
  (writtenAsNull a = true -> isEmptyMarker a = true) ->
  (writtenAsNull b = true -> isEmptyMarker b = true) ->
  isEmptyCell a = isEmptyCell b.
Proof.
  intros H Ha Hb. apply sameCell_class in H.
  destruct a as [| | [] | x | s], b as [| | [] | y | t]; simpl in *;
    try reflexivity; try discriminate;
    try (destruct (isFiniteNumber x) eqn:Fx; simpl in *);
    try (destruct (isFiniteNumber y) eqn:Fy; simpl in *);
    try discriminate; try reflexivity;
    try (specialize (Ha eq_refl); discriminate);
    try (specialize (Hb eq_refl); discriminate).
  now injection H as ->.
Qed.

Lemma sameRow_empty (r1 r2 : Row) :
  JSON_stringify r1 = JSON_stringify r2 ->
  Forall (fun c => writtenAsNull c = true -> isEmptyMarker c = true) r1 ->
  Forall (fun c => writtenAsNull c = true -> isEmptyMarker c = true) r2 ->
  isEmptyRow r1 = isEmptyRow r2.
Proof.
  intros H. apply JSON_stringify_texts, map_eq_Forall2 in H. destruct H as [_ H].
  unfold isEmptyRow. induction H as [|a b r1 r2 Hab _ IH]; intros F1 F2; [reflexivity|].
  inversion F1; subst. inversion F2; subst. simpl.
  now rewrite (sameCell_empty a b Hab), IH.
Qed.

Lemma normalizeCell_keeps_numbers cell :
  (writtenAsNull cell = true -> isEmptyMarker cell = true) ->
  writtenAsNull (normalizeCell cell) = true -> isEmptyMarker (normalizeCell cell) = true.
Proof.
  destruct cell as [| | b | x | s]; try (intros H; exact H).
  intros _. rewrite normalizeCell_CStr. discriminate.
Qed.

(** ** getSampleData *)

Lemma firstn_min {A} (n : nat) (l : list A) : firstn (Nat.min n (length l)) l = firstn n l.
Proof.
  destruct (Nat.le_ge_cases n (length l)) as [H|H].
  - now rewrite Nat.min_l.
  - rewrite Nat.min_r by exact H. now rewrite !firstn_all2 by lia.
Qed.

(** X1: for a sample size that is not negative (the default 20 when none
    is given), [getSampleData] returns the first rows of the grid, in
    order: as many as the sample size, or all rows when there are fewer. *)
Theorem getSampleData_first_rows (data : Grid) (sampleSize : option Z) :
  (0 <= match sampleSize with Some n => n | None => 20 end)%Z ->
  let n := Z.to_nat (match sampleSize with Some n => n | None => 20 end) in
  getSampleData (Some data) sampleSize = firstn n data
  /\ length (getSampleData (Some data) sampleSize) = Nat.min n (length data)
  /\ exists rest, data = getSampleData (Some data) sampleSize ++ rest.
Proof.
  intros Hn. cbv zeta.
  set (m := match sampleSize with Some n => n | None => 20%Z end) in *.
  assert (E : getSampleData (Some data) sampleSize = firstn (Z.to_nat m) data).
  { unfold getSampleData, AI_SAMPLE_SIZE. fold m.
    destruct data as [|row rest]; [now rewrite firstn_nil|].
    change (length (row :: rest) =? 0)%nat with false. cbv iota.
    unfold sliceFromStart. set (len := Z.of_nat (length (row :: rest))).
    assert (0 <= len)%Z by (unfold len; lia).
    destruct (Z.min m len <? 0)%Z eqn:L; [apply Z.ltb_lt in L; lia|].
    rewrite <- (firstn_min (Z.to_nat m)). f_equal.
    unfold len. lia. }
  rewrite E. split; [reflexivity|]. split; [apply length_firstn|].
  exists (skipn (Z.to_nat m) data). symmetry. apply firstn_skipn.
Qed.

Lemma getSampleData_first_rows_default :
  getSampleData (Some (repeat [CNum five] 25)) None = repeat [CNum five] 20
  /\ length (getSampleData (Some (repeat [CNum five] 25)) None) = 20.
Proof.
  destruct (getSampleData_first_rows (repeat [CNum five] 25) None) as (H1 & H2 & _);
    [vm_compute; discriminate|].
  split; [etransitivity; [exact H1 | reflexivity] | etransitivity; [exact H2 | reflexivity]].
Defined.

(** X2: a negative sample size is passed to [slice] as an end index
    counted from the end, so [getSampleData] returns all rows but the last
    [-sampleSize]: the sample is empty exactly when [-sampleSize] is at
    least the number of rows. *)
Theorem getSampleData_negative_size (data : Grid) (n : Z) :
  (n < 0)%Z ->
  getSampleData (Some data) (Some n) = firstn (length data - Z.to_nat (- n)) data
  /\ length (getSampleData (Some data) (Some n)) = length data - Z.to_nat (- n)
  /\ (getSampleData (Some data) (Some n) = [] <-> length data <= Z.to_nat (- n)).
Proof.
  intros Hn.
  assert (E : getSampleData (Some data) (Some n)
              = firstn (length data - Z.to_nat (- n)) data).
  { unfold getSampleData.
    destruct data as [|row rest]; [reflexivity|].
    change (length (row :: rest) =? 0)%nat with false. cbv iota.
    unfold sliceFromStart. set (len := Z.of_nat (length (row :: rest))).
    assert (0 <= len)%Z by (unfold len; lia).
    rewrite Z.min_l by lia.
    destruct (n <? 0)%Z eqn:L; [|apply Z.ltb_ge in L; lia].
    f_equal. unfold len. lia. }
  assert (L : length (getSampleData (Some data) (Some n)) = length data - Z.to_nat (- n)).
  { rewrite E, length_firstn. lia. }
  split; [exact E|]. split; [exact L|]. split.
  - intros H. rewrite H in L. simpl in L. lia.
  - intros H. apply length_zero_iff_nil. rewrite L. lia.
Qed.

Lemma getSampleData_negative_size_example :
  getSampleData (Some scenarioA) (Some (-1)%Z)
  = [ [CStr "  alice  "; CStr "30"]; [CStr "Alice"; CStr "30"] ]
  /\ getSampleData (Some scenarioA) (Some (-5)%Z) = [].
Proof.
  split.
  - rewrite (proj1 (getSampleData_negative_size scenarioA (-1) ltac:(lia))). reflexivity.
  - apply (proj2 (proj2 (getSampleData_negative_size scenarioA (-5) ltac:(lia)))).
    simpl. lia.
Defined.

(** ** The stages on their own *)

(** X3: [trimAllWhitespace] keeps the number of rows and the length of
    every row, and trimming twice is the same as trimming once. *)
Theorem trimAllWhitespace_idempotent (data : Grid) :
  trimAllWhitespace (trimAllWhitespace data) = trimAllWhitespace data
  /\ map (@length Cell) (trimAllWhitespace data) = map (@length Cell) data.
Proof.
  unfold trimAllWhitespace. rewrite !map_map. split.
  - apply map_ext. intros row. rewrite map_map. apply map_ext.
    intros [| | b | x | s]; try reflexivity. simpl. now rewrite trim_idem.
  - apply map_ext. intros row. apply length_map.
Qed.

(** X4: [normalizeCasing] applied twice is the same as applied once, on
    any grid (trimmed or not). *)
Theorem normalizeCasing_idempotent (data : Grid) :
  normalizeCasing (normalizeCasing data) = normalizeCasing data.
Proof.
  unfold normalizeCasing. rewrite map_map. apply map_ext. intros row.
  rewrite map_map. apply map_ext.
  intros [| | b | x | s]; try reflexivity.
  rewrite !normalizeCasingCell_CStr. now rewrite titleCased_idem.
Qed.

(** X5: the rows that [removeDuplicateRows] returns have pairwise
    different serializations, so removing duplicates again changes
    nothing; and every input row has a survivor with its serialization. *)
Theorem removeDuplicateRows_idempotent (data : Grid) :
  removeDuplicateRows (removeDuplicateRows data) = removeDuplicateRows data
  /\ forall row, In row data ->
       exists kept, In kept (removeDuplicateRows data)
                    /\ JSON_stringify kept = JSON_stringify row.
Proof.
  split.
  - rewrite (removeDuplicateRows_keepFirst (removeDuplicateRows data)).
    apply keepFirstFrom_distinct. apply removeDuplicateRows_NoDup.
  - intros row H. rewrite removeDuplicateRows_keepFirst.
    destruct (keepFirstFrom_complete data [] row H) as [[]|H'].
    apply in_map_iff in H'. destruct H' as (kept & E & Hk). now exists kept.
Qed.

(** X6: on any grid [replaceEmptyCells] keeps the number of rows and the
    length of every row, leaves no cell that is [null], [undefined] or a
    blank string, and applied twice is the same as applied once. *)
Theorem replaceEmptyCells_total (data : Grid) :
  map (@length Cell) (replaceEmptyCells data) = map (@length Cell) data
  /\ Forall (Forall (fun cell => ~ EmptyCell cell)) (replaceEmptyCells data)
  /\ replaceEmptyCells (replaceEmptyCells data) = replaceEmptyCells data.
Proof.
  unfold replaceEmptyCells. rewrite !map_map. repeat split.
  - apply map_ext. intros row. apply length_map.
  - apply List.Forall_map, List.Forall_forall. intros row _.
    apply List.Forall_map, List.Forall_forall. intros cell _ HE.
    apply isEmptyCell_iff in HE. now rewrite replaceEmptyCell_nonempty in HE.
  - apply map_ext. intros row. rewrite map_map. apply map_ext. intros cell.
    apply replaceEmptyCell_fixed, replaceEmptyCell_nonempty.
Qed.

(** X7: the order of the last two stages matters.  Once the empty cells
    are replaced, only rows without any cell count as empty, so removing
    the empty rows after the replacement would keep every blank row as a
    row of placeholders. *)
Theorem removeEmptyRows_after_replacement (data : Grid) :
  removeEmptyRows (replaceEmptyCells data)
  = replaceEmptyCells (List.filter (fun row => negb (length row =? 0)%nat) data).
Proof.
  unfold removeEmptyRows, replaceEmptyCells.
  induction data as [|row data IH]; [reflexivity|]. simpl. rewrite IH.
  destruct row as [|c row]; [reflexivity|].
  unfold isEmptyRow. simpl. now rewrite replaceEmptyCell_nonempty.
Qed.

Lemma detectHeaderRowFrom_spec rows : forall i,
  match detectHeaderRowFrom i rows with
  | Some k =>
      exists j row, k = i + j /\ rows !! j = Some row /\ isEmptyRow row = false
                    /\ forall j' row', j' < j -> rows !! j' = Some row' -> isEmptyRow row' = true
  | None => Forall (fun row => isEmptyRow row = true) rows
  end.
Proof.
  induction rows as [|row rest IH]; intros i; simpl; [constructor|].
  destruct (isEmptyRow row) eqn:E; simpl.
  - specialize (IH (S i)). destruct (detectHeaderRowFrom (S i) rest) as [k|].
    + destruct IH as (j & r & -> & Hj & Hr & Hb).
      exists (S j), r. repeat split; [lia | exact Hj | exact Hr |].
      intros [|j'] row' Hlt Hrow'; simpl in Hrow'.
      * now injection Hrow' as <-.
      * apply (Hb j'); [lia | exact Hrow'].
    + now constructor.
  - exists 0, row. repeat split; [lia | exact E |]. intros j' row' Hlt. lia.
Qed.

(** X8: on any grid [detectHeaderRow] returns the index of the first row
    that is not empty, and 0 when every row is empty (or there is none);
    so the index 0 alone does not tell whether a header was found.  On a
    grid with rows the index is a valid row index. *)
Theorem detectHeaderRow_first_nonempty (data : Grid) :
  ((exists row, data !! detectHeaderRow data = Some row /\ isEmptyRow row = false
                /\ forall j row', j < detectHeaderRow data -> data !! j = Some row' ->
                                  isEmptyRow row' = true)
   \/ (Forall (fun row => isEmptyRow row = true) data /\ detectHeaderRow data = 0))
  /\ (data <> [] -> detectHeaderRow data < length data).
Proof.
  unfold detectHeaderRow. pose proof (detectHeaderRowFrom_spec data 0) as H.
  destruct (detectHeaderRowFrom 0 data) as [k|].
  - destruct H as (j & row & -> & Hj & Hr & Hb). simpl. split.
    + left. exists row. auto.
    + intros _. now apply lookup_lt_Some in Hj.
  - split; [right; auto|]. intros Hne. destruct data; [contradiction | simpl; lia].
Qed.

(** ** What cleanData keeps of its input *)

(** X9: every row of the result is an input row that was not empty, with
    each cell trimmed, case-normalized and, when empty, replaced; the rows
    come in the order of the input; and numbers and booleans are copied as
    they are. *)
Theorem cleanData_rows_from_input (g : Grid) (r : CleaningResult) :
  cleanData (Some g) = Returns r ->
  sublist (cleanedData r) (map (map cleanCell) g)
  /\ (forall row, In row (cleanedData r) ->
        exists row0, In row0 g /\ isEmptyRow row0 = false /\ row = map cleanCell row0)
  /\ (forall x, cleanCell (CNum x) = CNum x)
  /\ (forall b, cleanCell (CBool b) = CBool b).
Proof.
  intros H. apply cleanData_Returns in H. destruct H as [_ ->].
  cbn [cleanedData]. repeat split.
  - apply cleanedGrid_sublist.
  - apply cleanedGrid_origin.
Qed.

Lemma cleanData_rows_from_input_scenarioB :
  sublist (cleanedData resultB) (map (map cleanCell) scenarioB)
  /\ cleanCell (CNum five) = CNum five.
Proof.
  destruct (cleanData_rows_from_input scenarioB resultB) as (H1 & _ & H3 & _);
    [vm_compute; reflexivity|].
  split; [exact H1 | apply H3].
Defined.

(** X10: cleaning keeps the width of a rectangular grid: when every input
    row has [w] cells, so has every row of the result. *)
Theorem cleanData_keeps_width (g : Grid) (r : CleaningResult) (w : nat) :
  cleanData (Some g) = Returns r ->
  Forall (fun row => length row = w) g ->
  Forall (fun row => length row = w) (cleanedData r).
Proof.
  intros H Hw. apply cleanData_Returns in H. destruct H as [_ ->]. cbn [cleanedData].
  apply List.Forall_forall. intros row Hrow.
  apply cleanedGrid_origin in Hrow. destruct Hrow as (row0 & H0 & _ & ->).
  rewrite length_map. rewrite List.Forall_forall in Hw. now apply Hw.
Qed.

Lemma cleanData_keeps_width_scenarioA :
  Forall (fun row => length row = 2) (cleanedData resultA).
Proof.
  apply (cleanData_keeps_width scenarioA resultA 2); [vm_compute; reflexivity|].
  repeat constructor.
Defined.

(** X11: every cell of the result is left alone by each of the three
    cell-level steps: trimming it, normalizing its case and replacing
    empty cells all return the cell itself. *)
Theorem cleaned_cells_are_fixed_points (g : Grid) (r : CleaningResult) :
  cleanData (Some g) = Returns r ->
  forall row cell, In row (cleanedData r) -> In cell row ->
    trimWhitespace cell = cell
    /\ normalizeCasingCell cell = cell
    /\ replaceEmptyCell cell = cell.
Proof.
  intros H row cell Hrow Hcell. apply cleanData_Returns in H. destruct H as [_ ->].
  cbn [cleanedData] in Hrow.
  pose proof (cleanedGrid_cells g) as HC.
  rewrite List.Forall_forall in HC. specialize (HC row Hrow).
  rewrite List.Forall_forall in HC. destruct (HC cell Hcell) as [HE HN].
  split; [|split].
  - destruct cell as [| | b | x | s]; try reflexivity.
    rewrite normalizeCell_CStr in HN. injection HN as HN. simpl.
    rewrite <- HN at 1. now rewrite trim_titleCased, trim_idem, HN.
  - destruct cell as [| | b | x | s]; try reflexivity.
    rewrite normalizeCell_CStr in HN. injection HN as HN.
    rewrite normalizeCasingCell_CStr. rewrite <- HN at 1.
    now rewrite titleCased_idem, HN.
  - now apply replaceEmptyCell_fixed.
Qed.

Lemma cleaned_cells_are_fixed_points_scenarioB :
  trimWhitespace (CStr "N/A") = CStr "N/A"
  /\ normalizeCasingCell (CStr "N/A") = CStr "N/A"
  /\ replaceEmptyCell (CStr "N/A") = CStr "N/A".
Proof.
  apply (cleaned_cells_are_fixed_points scenarioB resultB) with (row := [CStr "X"; CStr "N/A"]).
  - vm_compute. reflexivity.
  - left. reflexivity.
  - right. left. reflexivity.
Defined.

Lemma cleanedGrid_nil_of_empty_rows data :
  Forall (fun row => isEmptyRow row = true) data -> cleanedGrid data = [].
Proof.
  intros H. destruct (cleanedGrid data) as [|row rest] eqn:E; [reflexivity|].
  exfalso. assert (Hin : In row (cleanedGrid data)) by (rewrite E; now left).
  apply cleanedGrid_origin in Hin. destruct Hin as (row0 & H0 & HE & _).
  rewrite List.Forall_forall in H. rewrite (H row0 H0) in HE. discriminate.
Qed.

Lemma cleanedGrid_nonempty data row0 :
  Forall (Forall (fun c => writtenAsNull c = true -> isEmptyMarker c = true)) data ->
  In row0 data -> isEmptyRow row0 = false -> cleanedGrid data <> [].
Proof.
  intros HF H0 HE.
  assert (Hn : In (map normalizeCell row0) (normalizeCasing (trimAllWhitespace data))).
  { rewrite stages12_cells. now apply in_map. }
  assert (HFn : Forall (Forall (fun c => writtenAsNull c = true -> isEmptyMarker c = true))
                       (normalizeCasing (trimAllWhitespace data))).
  { rewrite stages12_cells. apply List.Forall_map.
    eapply List.Forall_impl; [|exact HF]. intros row Hrow. apply List.Forall_map.
    eapply List.Forall_impl; [|exact Hrow]. intros c. apply normalizeCell_keeps_numbers. }
  destruct (keepFirstFrom_complete _ [] _ Hn) as [[]|Hk].
  apply in_map_iff in Hk. destruct Hk as (kept & Ek & Hk).
  rewrite List.Forall_forall in HFn.
  assert (Hkept : isEmptyRow kept = false).
  { rewrite (sameRow_empty kept (map normalizeCell row0) Ek).
    - now rewrite isEmptyRow_normalized.
    - apply HFn. now apply keepFirstFrom_In in Hk.
    - now apply HFn. }
  assert (Hb : In kept (beforeReplacement data)).
  { unfold beforeReplacement. apply removeEmptyRows_In. split; [|exact Hkept].
    now rewrite removeDuplicateRows_keepFirst. }
  intros E.
  assert (Hc : In (map replaceEmptyCell kept) (cleanedGrid data)).
  { unfold cleanedGrid, replaceEmptyCells. apply in_map_iff. now exists kept. }
  rewrite E in Hc. contradiction.
Qed.

(** X12: when every row of the input is empty, the result has no rows.
    Conversely, when no cell of the input is a non-finite number (NaN or an
    infinity), a result without rows means that every input row was
    empty. *)
Theorem cleanData_no_rows_iff_all_empty (g : Grid) (r : CleaningResult) :
  cleanData (Some g) = Returns r ->
  (Forall (fun row => isEmptyRow row = true) g -> cleanedData r = [])
  /\ (Forall (Forall (fun cell => isNonFiniteCell cell = false)) g ->
      cleanedData r = [] -> Forall (fun row => isEmptyRow row = true) g).
Proof.
  intros H. apply cleanData_Returns in H. destruct H as [_ ->]. cbn [cleanedData]. split.
  - apply cleanedGrid_nil_of_empty_rows.
  - intros HF E. apply List.Forall_forall. intros row0 H0.
    destruct (isEmptyRow row0) eqn:HE; [reflexivity|].
    exfalso. apply (cleanedGrid_nonempty g row0); try assumption.
    eapply List.Forall_impl; [|exact HF]. intros row Hrow.
    eapply List.Forall_impl; [|exact Hrow].
    intros [| | b | x | s]; simpl; try reflexivity; try discriminate.
    intros Hx. now rewrite Hx.
Qed.

Lemma cleanData_no_rows_iff_all_empty_emptyRowGrid :
  exists r, cleanData (Some emptyRowGrid) = Returns r /\ cleanedData r = [].
Proof.
  eexists. split; [vm_compute; reflexivity|].
  refine (proj1 (cleanData_no_rows_iff_all_empty emptyRowGrid _ eq_refl) _).
  repeat constructor.
Defined.

(** Without the condition on numbers the converse fails: a row holding NaN
    is dropped as a duplicate of the empty row before it, which is then
    removed as empty. *)
Example nan_row_lost_after_empty_row :
  exists r, cleanData (Some [ [CNull]; [CNum NaN] ]) = Returns r /\ cleanedData r = [].
Proof. eexists. split; vm_compute; reflexivity. Qed.

(** ** Writing the cleaned grid back *)

(** X13: the write step accepts the cleaned grid exactly when it has a
    row: every cleaned row has a cell, so [writeRangeData] refuses the
    result of [cleanData] only when no row is left - as for a selection of
    blank rows - and otherwise resizes the range by one less than the
    number of cleaned rows and one less than the length of the first. *)
Theorem writeRangeOffsets_of_cleaned (g : Grid) (r : CleaningResult) :
  cleanData (Some g) = Returns r ->
  (cleanedData r = [] ->
     writeRangeOffsets (cleanedData r) = Throws "Cannot write empty data to Excel range.")
  /\ (forall first rest, cleanedData r = first :: rest ->
        writeRangeOffsets (cleanedData r)
        = Returns (Z.of_nat (cleanedRowCount r) - 1, Z.of_nat (length first) - 1)%Z
        /\ 1 <= length first)
  /\ (Forall (fun row => isEmptyRow row = true) g ->
        writeRangeOffsets (cleanedData r) = Throws "Cannot write empty data to Excel range.").
Proof.
  intros H. apply cleanData_Returns in H. destruct H as [_ ->].
  cbn [cleanedData cleanedRowCount]. split; [|split].
  - intros ->. reflexivity.
  - intros first rest E.
    assert (Hf : isEmptyRow first = false).
    { pose proof (cleanedGrid_rows g) as HR. rewrite E in HR. now inversion HR. }
    assert (L : 1 <= length first) by (destruct first; [discriminate | simpl; lia]).
    split; [|exact L]. rewrite E. unfold writeRangeOffsets.
    destruct (Z.of_nat (length (first :: rest)) =? 0)%Z eqn:R; [simpl in R; lia|].
    destruct (Z.of_nat (length first) =? 0)%Z eqn:C; [lia|]. reflexivity.
  - intros HE. now rewrite (cleanedGrid_nil_of_empty_rows g HE).
Qed.

Lemma writeRangeOffsets_of_cleaned_scenarioA :
  writeRangeOffsets (cleanedData resultA) = Returns (0, 1)%Z.
Proof.
  destruct (writeRangeOffsets_of_cleaned scenarioA resultA) as (_ & H & _);
    [vm_compute; reflexivity|].
  destruct (H [CStr "Alice"; CStr "30"] [] eq_refl) as [H' _]. exact H'.
Defined.

(** ** formatDataForAI *)

Lemma splitOn_whole sep p :
  allChars (fun c => negb (Ascii.eqb c sep)) p = true -> splitOn sep p = [p].
Proof.
  induction p as [|c p IH]; simpl; [reflexivity|].
  intros H. apply andb_true_iff in H. destruct H as [Hc Hp].
  apply negb_true_iff in Hc. now rewrite Hc, (IH Hp).
Qed.

Lemma splitOn_first sep p rest :
  allChars (fun c => negb (Ascii.eqb c sep)) p = true ->
  splitOn sep (p +:+ String sep rest) = p :: splitOn sep rest.
Proof.
  induction p as [|c p IH]; simpl.
  - intros _. now rewrite Ascii.eqb_refl.
  - intros H. apply andb_true_iff in H. destruct H as [Hc Hp].
    apply negb_true_iff in Hc. now rewrite Hc, (IH Hp).
Qed.

Lemma splitOn_arrayJoin sep parts :
  parts <> [] ->
  Forall (fun p => allChars (fun c => negb (Ascii.eqb c sep)) p = true) parts ->
  splitOn sep (arrayJoin (String sep EmptyString) parts) = parts.
Proof.
  intros Hne H. induction H as [|p parts Hp _ IH]; [contradiction|].
  destruct parts as [|q parts]; [now apply splitOn_whole|].
  change (arrayJoin (String sep EmptyString) (p :: q :: parts))
    with (p +:+ String sep (arrayJoin (String sep EmptyString) (q :: parts))).
  rewrite (splitOn_first sep p _ Hp). f_equal. now apply IH.
Qed.

Lemma allChars_arrayJoin p sep parts :
  allChars p sep = true -> Forall (fun t => allChars p t = true) parts ->
  allChars p (arrayJoin sep parts) = true.
Proof.
  intros Hs H. induction H as [|t parts Ht _ IH]; [reflexivity|].
  destruct parts as [|q parts]; [exact Ht|].
  change (arrayJoin sep (t :: q :: parts)) with (t +:+ sep +:+ arrayJoin sep (q :: parts)).
  now rewrite !allChars_app, Ht, Hs, IH.
Qed.

(** X14: the tab-separated text that [formatDataForAI] builds can be read
    back: when the grid has rows, every row has a cell and no cell text
    holds a tab or a line feed, splitting the text at line feeds and tabs
    gives back the text of every cell, row by row ([null] and [undefined]
    read as the empty text). *)
Theorem formatDataForAI_round_trip (data : Grid) :
  data <> [] ->
  Forall (fun row => row <> []) data ->
  Forall (Forall (fun cell => allChars isFieldChar (joinText cell) = true)) data ->
  readTable (formatDataForAI (Some data)) = map (map joinText) data.
Proof.
  intros Hne Hrows Hcells. unfold formatDataForAI, readTable.
  destruct data as [|row0 rest]; [contradiction|].
  change (length (row0 :: rest) =? 0)%nat with false. cbv iota zeta.
  set (data := row0 :: rest) in *.
  rewrite splitOn_arrayJoin.
  - rewrite map_map. apply map_ext_in. intros row Hrow.
    rewrite List.Forall_forall in Hrows, Hcells.
    apply splitOn_arrayJoin.
    + intros E. apply (Hrows row Hrow). now destruct row.
    + apply List.Forall_map. eapply List.Forall_impl; [|apply (Hcells row Hrow)].
      intros cell. apply allChars_weaken. intros c Hc.
      apply andb_true_iff in Hc. tauto.
  - discriminate.
  - apply List.Forall_map. eapply List.Forall_impl; [|exact Hcells].
    intros row Hrow. apply allChars_arrayJoin; [reflexivity|].
    apply List.Forall_map. eapply List.Forall_impl; [|exact Hrow].
    intros cell. apply allChars_weaken. intros c Hc.
    apply andb_true_iff in Hc. tauto.
Qed.

Lemma formatDataForAI_round_trip_scenarioB :
  readTable (formatDataForAI (Some (cleanedData resultB))) = [["X"; "N/A"]].
Proof.
  rewrite (formatDataForAI_round_trip (cleanedData resultB)).
  - reflexivity.
  - discriminate.
  - repeat constructor; discriminate.
  - repeat constructor.
Defined.

(** A tab inside a cell makes the text ambiguous. *)
Example formatDataForAI_ambiguous :
  formatDataForAI (Some [[CStr (String "a" (String tab "b"))]])
  = formatDataForAI (Some [[CStr "a"; CStr "b"]]).
Proof. reflexivity. Qed.

(** ** parseAIResponse *)

(** X15: whatever [parseAIResponse] returns has no white space at either
    end: it is one of its two fixed messages or the trimmed content. *)
Theorem parseAIResponse_trimmed (apiResponse : option Json) (insights : string) :
  parseAIResponse apiResponse = Returns insights -> trim insights = insights.
Proof.
  unfold parseAIResponse.
  repeat match goal with
  | |- context [if ?b then _ else _] => destruct b
  | |- context [match ?x with _ => _ end] => destruct x
  end;
  intros H; try discriminate; injection H as <-;
  solve [ vm_compute; reflexivity | apply trim_idem ].
Qed.

Lemma parseAIResponse_trimmed_example :
  parseAIResponse (Some (responseWith (JString "  Looks fine. ") [])) = Returns "Looks fine."
  /\ trim "Looks fine." = "Looks fine.".
Proof.
  assert (H : parseAIResponse (Some (responseWith (JString "  Looks fine. ") []))
              = Returns "Looks fine.") by (vm_compute; reflexivity).
  split; [exact H | exact (parseAIResponse_trimmed _ _ H)].
Defined.

Lemma jsonProperty_object v key x : jsonProperty v key = Some x -> exists members, v = JObject members.
Proof. destruct v; try discriminate. eauto. Qed.

(** X16: when the response is an object whose [choices] is an array, whose
    first choice has a [message] with a non-empty string as [content],
    [parseAIResponse] returns that content trimmed - whatever else the
    response, the choice and the message hold, and whatever follows the
    first choice. *)
Theorem parseAIResponse_first_choice
    (response first message : Json) (others : list Json) (s : string) :
  jsonProperty response "choices" = Some (JArray (first :: others)) ->
  jsonProperty first "message" = Some message ->
  jsonProperty message "content" = Some (JString s) ->
  s <> EmptyString ->
  parseAIResponse (Some response) = Returns (trim s).
Proof.
  intros Hc Hm Hs Hne.
  destruct (jsonProperty_object _ _ _ Hc) as (rm & ->).
  destruct (jsonProperty_object _ _ _ Hm) as (fm & ->).
  destruct (jsonProperty_object _ _ _ Hs) as (mm & ->).
  unfold parseAIResponse. cbn [jsonTruthy negb]. rewrite Hc.
  cbn [jsonTruthy negb lengthIsZero length Nat.eqb firstElement]. rewrite Hm, Hs.
  cbn [jsonTruthy]. destruct s; [contradiction | reflexivity].
Qed.

Lemma parseAIResponse_first_choice_example :
  parseAIResponse (Some (responseWith (JString " Two rows differ. ") [JNull]))
  = Returns (trim " Two rows differ. ").
Proof.
  apply (parseAIResponse_first_choice _
           (JObject [("message", JObject [("content", JString " Two rows differ. ")])])
           (JObject [("content", JString " Two rows differ. ")]) [JNull]);
    solve [reflexivity | discriminate].
Defined.

(** X17: [parseAIResponse] throws on two kinds of malformed response: when
    [choices] is an array whose first element is [null], and when the
    content of the first message is a truthy value that is no string (a
    number, [true], an array or an object). *)
Theorem parseAIResponse_throws
    (response first : Json) (others : list Json) :
  jsonProperty response "choices" = Some (JArray (first :: others)) ->
  first = JNull
  \/ (exists message content,
        jsonProperty first "message" = Some message
        /\ jsonProperty message "content" = Some content
        /\ jsonTruthy (Some content) = true
        /\ forall s, content <> JString s) ->
  parseAIResponse (Some response) = Throws typeError.
Proof.
  intros Hc H.
  destruct (jsonProperty_object _ _ _ Hc) as (rm & ->).
  unfold parseAIResponse. cbn [jsonTruthy negb]. rewrite Hc.
  cbn [jsonTruthy negb lengthIsZero length Nat.eqb firstElement].
  destruct H as [-> | (message & content & Hm & Hs & Ht & Hn)]; [reflexivity|].
  destruct (jsonProperty_object _ _ _ Hm) as (fm & ->).
  destruct (jsonProperty_object _ _ _ Hs) as (mm & ->).
  rewrite Hm, Hs, Ht. cbn [negb].
  destruct content; try reflexivity. now destruct (Hn s).
Qed.

Lemma parseAIResponse_throws_example :
  parseAIResponse (Some (responseWith (JNumber five) [])) = Throws typeError.
Proof.
  apply (parseAIResponse_throws _
           (JObject [("message", JObject [("content", JNumber five)])]) []);
    [reflexivity|].
  right. exists (JObject [("content", JNumber five)]), (JNumber five).
  repeat split. discriminate.
Defined.

(** ** Configuration *)

(** X18: [getConfigValue] returns a truthy value whenever its default is
    truthy, so the endpoint and the model are never empty; a truthy value
    in [window.config] wins over the environment; and [getApiKey] is
    [getConfigValue] for the key name with default [null], so its result
    is falsy only when it is [null]. *)
Theorem config_values_truthy (g : Globals) :
  (forall key defaultValue,
      toBoolean defaultValue = true -> toBoolean (getConfigValue g key defaultValue) = true)
  /\ toBoolean (AI_API_ENDPOINT g) = true
  /\ toBoolean (AI_MODEL g) = true
  /\ (forall key defaultValue,
        toBoolean (settingOf (windowConfig g) key) = true ->
        getConfigValue g key defaultValue = settingOf (windowConfig g) key)
  /\ getApiKey g = getConfigValue g "AI_API_KEY" CNull
  /\ (toBoolean (getApiKey g) = false <-> getApiKey g = CNull).
Proof.
  assert (T : forall key defaultValue,
             toBoolean defaultValue = true ->
             toBoolean (getConfigValue g key defaultValue) = true).
  { intros key d Hd. unfold getConfigValue.
    destruct (toBoolean (settingOf (windowConfig g) key)) eqn:W; [exact W|].
    destruct (toBoolean (settingOf (processEnv g) key)) eqn:P; [exact P | exact Hd]. }
  split; [exact T|]. split; [now apply T|]. split; [now apply T|]. split; [|split].
  - intros key d W. unfold getConfigValue. now rewrite W.
  - reflexivity.
  - unfold getApiKey.
    destruct (toBoolean (settingOf (windowConfig g) "AI_API_KEY")) eqn:W.
    + split; [congruence | intros E; rewrite E in W; discriminate].
    + destruct (toBoolean (settingOf (processEnv g) "AI_API_KEY")) eqn:P.
      * split; [congruence | intros E; rewrite E in P; discriminate].
      * split; reflexivity.
Qed.

(** ** analyzeData *)

Lemma sliceFromStart_sample {A} (rows : list A) :
  sliceFromStart rows AI_SAMPLE_SIZE = firstn 20 rows.
Proof.
  unfold sliceFromStart, AI_SAMPLE_SIZE. cbn [Z.ltb Z.compare].
  rewrite <- (firstn_min 20). f_equal. lia.
Qed.

Lemma getSampleData_default (rows : Grid) : getSampleData (Some rows) None = firstn 20 rows.
Proof.
  unfold getSampleData, AI_SAMPLE_SIZE.
  destruct rows as [|row rest]; [reflexivity|].
  change (length (row :: rest) =? 0)%nat with false. cbv iota.
  unfold sliceFromStart. set (len := Z.of_nat (length (row :: rest))).
  assert (0 <= len)%Z by (unfold len; lia).
  destruct (Z.min 20 len <? 0)%Z eqn:L; [apply Z.ltb_lt in L; lia|].
  rewrite <- (firstn_min 20). f_equal. unfold len. lia.
Qed.

(** X19: [analyzeData] returns [null] without sending anything when the
    analysis is not enabled, when no API key is configured, or when there
    is no data. *)
Theorem analyzeData_not_sent (g : Globals) (fetch : Request -> FetchOutcome)
    (cleanedData : option Grid) (enabled : bool) :
  enabled = false \/ toBoolean (getApiKey g) = false
  \/ cleanedData = None \/ cleanedData = Some [] ->
  analyzeData g fetch cleanedData enabled = (None, []).
Proof.
  unfold analyzeData. intros [-> | [H | [-> | ->]]].
  - reflexivity.
  - rewrite H. now destruct enabled.
  - destruct enabled; [|reflexivity]. now destruct (toBoolean (getApiKey g)).
  - destruct enabled; [|reflexivity]. now destruct (toBoolean (getApiKey g)).
Qed.

Lemma analyzeData_not_sent_example :
  analyzeData {| window := None; process := None |} (fun _ => Rejected "offline")
              (Some (cleanedData resultA)) true
  = (None, []).
Proof. apply analyzeData_not_sent. right. left. reflexivity. Defined.

(** X20: [analyzeData] sends at most one request, and only when the
    analysis is enabled, a key is configured and the data has rows; the
    request carries the configured key and the text of the first 20 rows of
    the data at most - the sample that [getSampleData] takes by default. *)
Theorem analyzeData_sends_the_sample (g : Globals) (fetch : Request -> FetchOutcome)
    (data : option Grid) (enabled : bool) (request : Request) :
  In request (analyzeData g fetch data enabled).2 ->
  enabled = true
  /\ toBoolean (getApiKey g) = true
  /\ exists rows,
       data = Some rows /\ rows <> []
       /\ (analyzeData g fetch data enabled).2 = [request]
       /\ request = requestFor g (getSampleData (Some rows) None) (getApiKey g)
       /\ userContent request = promptFor (formatDataForAI (Some (firstn 20 rows)))
       /\ length (getSampleData (Some rows) None) <= 20.
Proof.
  unfold analyzeData. destruct enabled; [|contradiction]. cbn [negb].
  destruct (toBoolean (getApiKey g)) eqn:K; [|contradiction]. cbn [negb].
  destruct data as [[|row rest]|]; try contradiction.
  change (length (row :: rest) =? 0)%nat with false. cbv iota.
  set (rows := row :: rest).
  pose proof (getSampleData_default rows) as S.
  rewrite sliceFromStart_sample. unfold callAIApi.
  set (req := requestFor g (firstn 20 rows) (getApiKey g)).
  assert (Hsent : forall (o : Completion Json) (r : Request),
             In r (let '(apiResponse, sent) := (o, [req]) in
                   match apiResponse with
                   | Throws _ => (None, sent)
                   | Returns j =>
                       match parseAIResponse (Some j) with
                       | Returns insights => (Some insights, sent)
                       | Throws _ => (None, sent)
                       end
                   end).2 ->
             r = req
             /\ (let '(apiResponse, sent) := (o, [req]) in
                 match apiResponse with
                 | Throws _ => (None, sent)
                 | Returns j =>
                     match parseAIResponse (Some j) with
                     | Returns insights => (Some insights, sent)
                     | Throws _ => (None, sent)
                     end
                 end).2 = [req]).
  { intros o r. destruct o as [j|m]; [destruct (parseAIResponse (Some j))|];
      cbn; intros [<-|[]]; split; reflexivity. }
  intros Hin. apply Hsent in Hin. destruct Hin as [-> Hone].
  repeat split. exists rows. repeat split.
  - discriminate.
  - exact Hone.
  - now rewrite S.
  - rewrite S. apply firstn_le_length.
Qed.

Lemma analyzeData_sends_the_sample_example :
  (analyzeData keyedGlobals offline (Some (cleanedData resultA)) true).2
  = [requestFor keyedGlobals (getSampleData (Some (cleanedData resultA)) None) (CStr "k")].
Proof.
  destruct (analyzeData_sends_the_sample keyedGlobals offline (Some (cleanedData resultA)) true
              (requestFor keyedGlobals (cleanedData resultA) (CStr "k")))
    as (_ & _ & rows & _ & _ & H & _).
  - left. reflexivity.
  - exact H.
Defined.

(** X21: when a request is sent, [analyzeData] returns insights exactly
    when the request is answered with an OK response whose body parses to
    insights; a rejected request, a response that is not OK, a body that is
    no JSON and a response that [parseAIResponse] throws on all give
    [null]. *)
Theorem analyzeData_insights (g : Globals) (fetch : Request -> FetchOutcome)
    (rows : Grid) (insights : string) :
  toBoolean (getApiKey g) = true ->
  rows <> [] ->
  let request := requestFor g (firstn 20 rows) (getApiKey g) in
  (analyzeData g fetch (Some rows) true).1 = Some insights
  <-> exists response body,
        fetch request = Resolved response
        /\ ok response = true
        /\ json response = Returns body
        /\ parseAIResponse (Some body) = Returns insights.
Proof.
  intros K Hne. cbv zeta. unfold analyzeData. cbn [negb]. rewrite K. cbn [negb].
  destruct rows as [|row rest]; [contradiction|].
  change (length (row :: rest) =? 0)%nat with false. cbv iota.
  rewrite sliceFromStart_sample. unfold callAIApi.
  set (req := requestFor g (firstn 20 (row :: rest)) (getApiKey g)).
  destruct (fetch req) as [m|resp].
  - cbn. split; [discriminate | intros (response & body & H & _); discriminate].
  - destruct (ok resp) eqn:O; cbn [negb].
    + destruct (json resp) as [j|m] eqn:J.
      * destruct (parseAIResponse (Some j)) as [t|m] eqn:P; cbn.
        -- split.
           ++ intros H. injection H as <-. exists resp, j. auto.
           ++ intros (response & body & H & _ & Hj & Hp). injection H as <-.
              rewrite J in Hj. injection Hj as <-. rewrite P in Hp. congruence.
        -- split; [discriminate|].
           intros (response & body & H & _ & Hj & Hp). injection H as <-.
           rewrite J in Hj. injection Hj as <-. rewrite P in Hp. discriminate.
      * cbn. split; [discriminate|].
        intros (response & body & H & _ & Hj & _). injection H as <-.
        rewrite J in Hj. discriminate.
    + destruct (text resp); cbn; (split; [discriminate|]);
        intros (response & body & H & Ho & _); injection H as <-; congruence.
Qed.

Lemma analyzeData_insights_example :
  (analyzeData keyedGlobals (answering (responseWith (JString " Fine. ") []))
               (Some (cleanedData resultA)) true).1
  = Some "Fine.".
Proof.
  apply (analyzeData_insights keyedGlobals _ (cleanedData resultA) "Fine.").
  - reflexivity.
  - discriminate.
  - eexists _, _. repeat split.
Defined.

(** ** What does not change the result of cleanData *)

Lemma keepFirstFrom_app a : forall before b,
  keepFirstFrom before (a ++ b) = keepFirstFrom before a ++ keepFirstFrom (before ++ a) b.
Proof.
  induction a as [|row a IH]; intros before b; simpl.
  - now rewrite app_nil_r.
  - rewrite IH. now rewrite <- !app_assoc.
Qed.

Lemma keepFirstFrom_same_seen rows : forall before1 before2,
  (forall row,
     forallb (fun r => negb (String.eqb (JSON_stringify r) (JSON_stringify row))) before1
     = forallb (fun r => negb (String.eqb (JSON_stringify r) (JSON_stringify row))) before2) ->
  keepFirstFrom before1 rows = keepFirstFrom before2 rows.
Proof.
  induction rows as [|row rest IH]; intros before1 before2 H; [reflexivity|].
  cbn [keepFirstFrom]. rewrite (H row). f_equal. apply IH.
  intros row'. now rewrite !forallb_app, (H row').
Qed.

Lemma keepFirstFrom_seen_again before row row0 rows :
  In row0 before -> JSON_stringify row0 = JSON_stringify row ->
  keepFirstFrom (before ++ [row]) rows = keepFirstFrom before rows.
Proof.
  intros H0 E. apply keepFirstFrom_same_seen. intros row'.
  rewrite forallb_app. cbn [forallb]. rewrite andb_true_r.
  destruct (forallb _ before) eqn:F; [|reflexivity]. cbn [andb].
  rewrite forallb_forall in F. specialize (F row0 H0). now rewrite <- E.
Qed.

Lemma cleanedGrid_normalized data :
  cleanedGrid (normalizeCasing (trimAllWhitespace data)) = cleanedGrid data.
Proof.
  unfold cleanedGrid, beforeReplacement. do 2 f_equal. f_equal.
  rewrite !stages12_cells, map_map. apply map_ext. intros row.
  rewrite map_map. apply map_ext. apply normalizeCell_idem.
Qed.

Lemma cleanedGrid_repeated_row a b row row0 :
  In row0 a ->
  JSON_stringify (map normalizeCell row0) = JSON_stringify (map normalizeCell row) ->
  cleanedGrid (a ++ row :: b) = cleanedGrid (a ++ b).
Proof.
  intros H0 E. unfold cleanedGrid, beforeReplacement. do 2 f_equal.
  rewrite !stages12_cells, !removeDuplicateRows_keepFirst. unfold keepFirstOccurrences.
  rewrite !map_app. cbn [map]. rewrite !keepFirstFrom_app. f_equal.
  cbn [keepFirstFrom app].
  assert (Hin : In (map normalizeCell row0) (map (map normalizeCell) a)) by now apply in_map.
  assert (F : forallb (fun r => negb (String.eqb (JSON_stringify r)
                                        (JSON_stringify (map normalizeCell row))))
                      (map (map normalizeCell) a) = false).
  { apply not_true_iff_false. intros F. rewrite forallb_forall in F.
    specialize (F _ Hin). rewrite E, String.eqb_refl in F. discriminate. }
  rewrite F. cbn [app].
  now apply (keepFirstFrom_seen_again _ _ (map normalizeCell row0)).
Qed.

(** X22: cleaning does not depend on the white space around a text or on
    its letter case: the grid after the first two stages is cleaned to the
    same grid as the input. *)
Theorem cleanData_of_normalized (g : Grid) (r : CleaningResult) :
  cleanData (Some g) = Returns r ->
  cleanData (Some (normalizeCasing (trimAllWhitespace g))) = Returns r.
Proof.
  intros H. apply cleanData_Returns in H. destruct H as [Hne ->].
  rewrite cleanData_Some.
  destruct g as [|row rest]; [contradiction|].
  cbn [trimAllWhitespace normalizeCasing map].
  change (map (fun row => map normalizeCasingCell row)
              (map (fun row => map trimWhitespace row) rest))
    with (normalizeCasing (trimAllWhitespace rest)).
  change (map normalizeCasingCell (map trimWhitespace row)
          :: normalizeCasing (trimAllWhitespace rest))
    with (normalizeCasing (trimAllWhitespace (row :: rest))).
  rewrite cleanedGrid_normalized. f_equal. f_equal.
  unfold normalizeCasing, trimAllWhitespace. now rewrite !length_map.
Qed.

Lemma cleanData_of_normalized_scenarioA :
  cleanData (Some (normalizeCasing (trimAllWhitespace scenarioA))) = Returns resultA.
Proof. apply cleanData_of_normalized. vm_compute. reflexivity. Defined.

(** X23: a row that repeats an earlier row - with the same serialization
    once both are trimmed and case-normalized - adds nothing: with the row
    inserted anywhere after that earlier row, [cleanData] returns the same
    cleaned grid, header index and cleaned row count, and an original row
    count that is one higher. *)
Theorem cleanData_ignores_repeated_row (a b : Grid) (row row0 : Row) (r : CleaningResult) :
  cleanData (Some (a ++ b)) = Returns r ->
  In row0 a ->
  JSON_stringify (map normalizeCell row0) = JSON_stringify (map normalizeCell row) ->
  cleanData (Some (a ++ row :: b))
  = Returns {| cleanedData := cleanedData r;
               headerRowIndex := headerRowIndex r;
               originalRowCount := S (originalRowCount r);
               cleanedRowCount := cleanedRowCount r |}.
Proof.
  intros H H0 E. apply cleanData_Returns in H. destruct H as [_ ->].
  cbn [cleanedData headerRowIndex originalRowCount cleanedRowCount].
  pose proof (cleanedGrid_repeated_row a b row row0 H0 E) as R.
  rewrite cleanData_Some.
  destruct (a ++ row :: b) as [|x l] eqn:Eq; [now destruct a|].
  rewrite <- Eq. f_equal. f_equal.
  - exact R.
  - exact (f_equal detectHeaderRow R).
  - rewrite !length_app. simpl. lia.
  - exact (f_equal (@length Row) R).
Qed.

Lemma cleanData_ignores_repeated_row_example :
  cleanData (Some ([[CStr "Alice"; CStr "30"]] ++ [CStr " ALICE "; CStr "30"] :: [[CNull; CNull]]))
  = Returns {| cleanedData := [[CStr "Alice"; CStr "30"]];
               headerRowIndex := 0;
               originalRowCount := 3;
               cleanedRowCount := 1 |}.
Proof.
  apply (cleanData_ignores_repeated_row _ _ _ [CStr "Alice"; CStr "30"]
           {| cleanedData := [[CStr "Alice"; CStr "30"]]; headerRowIndex := 0;
              originalRowCount := 2; cleanedRowCount := 1 |}).
  - vm_compute. reflexivity.
  - left. reflexivity.
  - vm_compute. reflexivity.
Defined.
